(** * The dev-server HMR plugin: build, retry and release on [session.idle]

    A shallow embedding of [.opencode/plugin/dev-server-hmr.ts].

    The plugin exports two hooks.  [event] reacts to [session.idle]: it runs
    [pnpm build], on a failing build asks the session to fix the error
    (bounded, in intention, by the counter [client.session["tries"]]), then
    bumps the patch version of [package.json], commits, tags and pushes, and
    finally calls [updateAppStatus("Active")].  [chat.message] calls
    [updateAppStatus("Pending")].

    Everything the handler does to the outside world is recorded, in order, in
    a trace of [Effect]s; everything the outside world answers is read from an
    [Env] record.  The only state the plugin itself keeps between two events
    is the property [tries] of the shared object [client.session]. *)

From Stdlib Require Import ZArith NArith List String Ascii Bool Lia.
From Stdlib Require Import DecimalString DecimalN.
Import ListNotations.
Open Scope string_scope.

Set Implicit Arguments.
Set Warnings "-register-all".

(** ** Data *)

(** The argument type of [updateAppStatus]. *)
Inductive Status := Errored | Active | Pending.

Definition Status_text (s : Status) : string :=
  match s with
  | Errored => "Errored"
  | Active => "Active"
  | Pending => "Pending"
  end.

(** What [await $`pnpm build`.catch((error) => error)] yields: the shell
    output of a build that exits with 0, or the error of one that does not;
    both carry [exitCode] and [stderr]. *)
Record BuildAttempt := { exitCode : Z; stderr : string }.

(** A value read by [JSON.parse].  Numbers are carried by their literal: the
    handler never looks inside one. *)
Inductive json :=
| JNull
| JBool (b : bool)
| JNumber (literal : string)
| JString (s : string)
| JArray (items : list json)
| JObject (fields : list (string * json)).

(** [fs.readFile("package.json")] followed by [JSON.parse]. *)
Inductive ManifestRead :=
| ReadFileThrows
| JSONParseThrows
| Parsed (packageJson : json).

(** [client.session.get]: the call rejects, or resolves to an object whose
    [data] may be missing and whose [title], when [data] is there, may be
    missing too. *)
Record SessionData := { title : option string }.

Inductive SessionGet :=
| GetThrows
| GetReturns (data : option SessionData).

(** The shell commands the handler issues. *)
Inductive Cmd :=
| PnpmBuild
| GitConfigUserName
| GitConfigUserEmail
| GitAdd
| GitCommit (message : string)
| GitTag (tag : string)
| GitPush.

(** The events the handler receives. *)
Record Event := { type : string; sessionID : string }.

(** What the handler does to the world, in order. *)
Inductive Effect :=
| EShell (c : Cmd)
| EPrompt (id text : string)
| EReadFile (path : string)
| ESessionGet (id : string)
| EWriteFile (path : string) (content : json)
| ECall_updateAppStatus (s : Status)
| EHttpPut (baseURL path body : string) (headers : list (string * string))
| EConsoleLog (msg : string)
| EConsoleError (msg : string).

(** What the world answers during one run of the handler. *)
Record Env := {
  build : BuildAttempt;
  prompt_ok : bool;
  manifest : ManifestRead;
  session_get : SessionGet;
  shell_ok : Cmd -> bool;
  writeFile_ok : bool
}.

(** The plugin's own state: [client.session["tries"]], [None] while the
    property is undefined. *)
Record Client := { tries : option Z }.

(** ** Effects and exceptions *)

Inductive result (A : Type) :=
| Ok (a : A)
| Throw.
Arguments Throw {A}.

Module Eff.

(** The end of a computation: the state of [client.session] it leaves, the
    effects it performed, and its value or the exception it raised. *)
Record Run (A : Type) := MkRun {
  final : Client;
  effects : list Effect;
  value : result A
}.

Definition M (A : Type) : Type := Client -> Run A.

Definition ret {A} (a : A) : M A := fun c => MkRun c [] (Ok a).

Definition bind {A B} (m : M A) (f : A -> M B) : M B :=
  fun c =>
    let r := m c in
    match value r with
    | Ok a =>
        let r' := f a (final r) in
        MkRun (final r') (effects r ++ effects r')%list (value r')
    | Throw => MkRun (final r) (effects r) Throw
    end.

Definition throw {A} : M A := fun c => MkRun c [] Throw.

Definition perform (e : Effect) : M unit := fun c => MkRun c [e] (Ok tt).

(** [perform], then raise when the world says the call failed. *)
Definition attempt (e : Effect) (ok : bool) : M unit :=
  fun c => MkRun c [e] (if ok then Ok tt else Throw).

Definition get : M Client := fun c => MkRun c [] (Ok c).
Definition put (c' : Client) : M unit := fun _ => MkRun c' [] (Ok tt).

(** [try { m } catch (error) { h }] *)
Definition try_catch {A} (m : M A) (h : M A) : M A :=
  fun c =>
    let r := m c in
    match value r with
    | Ok a => r
    | Throw =>
        let r' := h (final r) in
        MkRun (final r') (effects r ++ effects r')%list (value r')
    end.

End Eff.

Import Eff.

Declare Scope eff_scope.
Delimit Scope eff_scope with eff.
Bind Scope eff_scope with M.
Notation "x <- m ;; k" := (bind m (fun x => k))
  (at level 61, m at next level, right associativity) : eff_scope.
Notation "m ;;; k" := (bind m (fun _ => k))
  (at level 61, right associativity) : eff_scope.
Open Scope eff_scope.

(** ** Strings and numbers of the version arithmetic *)

Definition newline : string := String (ascii_of_nat 10) EmptyString.

(** [s.split(".")] *)
Fixpoint split_dot (s : string) : list string :=
  match s with
  | EmptyString => [EmptyString]
  | String c r =>
      if Ascii.eqb c "."%char then EmptyString :: split_dot r
      else match split_dot r with
           | h :: t => String c h :: t
           | [] => [String c EmptyString]
           end
  end.

(** The values that [major], [minor] and [patch] can hold.  Integers are
    exact here; a double is exact up to 2^53, and the theorems on version
    arithmetic assume that bound. *)
Inductive jsnum :=
| Num (n : N)
| NaN
| Undefined.

(** [Number(s)] on the strings a version holds: a run of decimal digits is
    its value and the empty string is 0.  Other numeric literals (a sign, a
    fraction, an exponent, hexadecimal, surrounding blanks) are outside this
    embedding and stand as [NaN]. *)
Definition Number (s : string) : jsnum :=
  match NilEmpty.uint_of_string s with
  | Some d => Num (N.of_uint d)
  | None => NaN
  end.

(** [x + 1] *)
Definition plus_one (x : jsnum) : jsnum :=
  match x with
  | Num n => Num (n + 1)
  | NaN | Undefined => NaN
  end.

Definition decimal (n : N) : string := NilEmpty.string_of_uint (N.to_uint n).

(** [`${x}`] *)
Definition show (x : jsnum) : string :=
  match x with
  | Num n => decimal n
  | NaN => "NaN"
  | Undefined => "undefined"
  end.

(** [const [major, minor, patch] = version.split(".").map(Number);
     const newVersion = `${major}.${minor}.${patch + 1}`;] *)
Definition newVersion (version : string) : string :=
  let parts := map Number (split_dot version) in
  let major := nth 0 parts Undefined in
  let minor := nth 1 parts Undefined in
  let patch := nth 2 parts Undefined in
  show major ++ "." ++ show minor ++ "." ++ show (plus_one patch).

Definition MAX_SAFE : N := 2 ^ 53.

(** ** The manifest *)

(** [obj[k]] on the own properties of a parsed object. *)
Fixpoint lookup (k : string) (fields : list (string * json)) : option json :=
  match fields with
  | [] => None
  | (k', v) :: rest => if String.eqb k' k then Some v else lookup k rest
  end.

(** [obj[k] = v]: an existing property keeps its place, a new one goes last. *)
Fixpoint set_field (k : string) (v : json) (fields : list (string * json))
  : list (string * json) :=
  match fields with
  | [] => [(k, v)]
  | (k', v') :: rest =>
      if String.eqb k' k then (k', v) :: rest
      else (k', v') :: set_field k v rest
  end.

(** [packageJson.version.split]: only an object whose [version] is a string
    has a [split] to call; every other shape raises a [TypeError]. *)
Definition version_of (packageJson : json) : M string :=
  match packageJson with
  | JObject fields =>
      match lookup "version" fields with
      | Some (JString v) => ret v
      | _ => throw
      end
  | _ => throw
  end.

(** [packageJson.version = newVersion].  [version_of] has succeeded when this
    runs, so [packageJson] is an object. *)
Definition assign_version (packageJson : json) (v : string) : json :=
  match packageJson with
  | JObject fields => JObject (set_field "version" (JString v) fields)
  | other => other
  end.

(** ** The module *)

(** [z.object({ vmOrchestrationStatusUpdateUrl: z.string() }).parse(...)] on
    [process.env.TAYLORDB_VM_ORCHESTRATION_STATUS_UPDATE_URL]: an unset
    variable is [undefined], which [z.string()] rejects by throwing. *)
Definition vmOrchestrationStatusUpdateUrl (env_var : option string)
  : result string :=
  match env_var with
  | Some url => Ok url
  | None => Throw
  end.

(** [new Axios({ baseURL })], together with what the world holds behind that
    URL: whether a request to it would be answered. *)
Record Axios := { baseURL : string; reachable : bool }.

(** The top level of the module, run once when the plugin is imported. *)
Definition load (env_var : option string) (reachable : bool) : result Axios :=
  match vmOrchestrationStatusUpdateUrl env_var with
  | Ok url => Ok {| baseURL := url; reachable := reachable |}
  | Throw => Throw
  end.

Definition dquote : string := String (ascii_of_nat 34) EmptyString.

(** [JSON.stringify({ status })] *)
Definition status_body (status : Status) : string :=
  "{" ++ dquote ++ "status" ++ dquote ++ ":"
      ++ dquote ++ Status_text status ++ dquote ++ "}".

(** [axios.put(path, body, { headers })]: the request goes out and the call
    rejects when nothing answers. *)
Definition axios_put (axios : Axios) (path body : string)
    (headers : list (string * string)) : M unit :=
  attempt (EHttpPut (baseURL axios) path body headers) (reachable axios).

(** The statement that the source keeps, as a comment, inside
    [updateAppStatus].  It is no part of the function. *)
Definition disabled_body (axios : Axios) (status : Status) : M unit :=
  axios_put axios "/" (status_body status)
            [("Content-Type", "application/json")].

(** The body of [updateAppStatus] is commented out in the source: the function
    takes its argument, touches neither [axios] nor anything else, and
    resolves. *)
Definition updateAppStatus (status : Status) : M unit := ret tt.

(** [await updateAppStatus(status)] at a call site. *)
Definition call_updateAppStatus (status : Status) : M unit :=
  perform (ECall_updateAppStatus status) ;;; updateAppStatus status.

(** Importing the module and then calling [updateAppStatus]: the call exists
    only when the top level has run to its end. *)
Definition import_then_updateAppStatus (env_var : option string)
    (reachable : bool) (status : Status) (c : Client) : result (Run unit) :=
  match load env_var reachable with
  | Ok _ => Ok (updateAppStatus status c)
  | Throw => Throw
  end.

(** ** The release *)

(** [$`...`] raises when the command exits with a code other than 0. *)
Definition sh (env : Env) (c : Cmd) : M unit :=
  attempt (EShell c) (shell_ok env c).

(** [JSON.parse(await fs.readFile("package.json", "utf-8"))] *)
Definition read_manifest (env : Env) : M json :=
  perform (EReadFile "package.json") ;;;
  match manifest env with
  | Parsed packageJson => ret packageJson
  | ReadFileThrows | JSONParseThrows => throw
  end.

(** [await client.session.get({ path: { id } })], then [.data] *)
Definition get_session (env : Env) (id : string) : M (option SessionData) :=
  perform (ESessionGet id) ;;;
  match session_get env with
  | GetReturns data => ret data
  | GetThrows => throw
  end.

(** [session.data?.title ?? `feat: release version v${newVersion}`]: the
    right-hand side is taken only when the left one is null or undefined. *)
Definition commitMessage (data : option SessionData) (newV : string)
  : string :=
  match data with
  | Some d =>
      match title d with
      | Some t => t
      | None => "feat: release version v" ++ newV
      end
  | None => "feat: release version v" ++ newV
  end.

(** The body of the handler's [try] block. *)
Definition release_try (env : Env) (id : string) : M unit :=
  packageJson <- read_manifest env ;;
  version <- version_of packageJson ;;
  let newV := newVersion version in
  data <- get_session env id ;;
  let message := commitMessage data newV in
  sh env GitConfigUserName ;;;
  sh env GitConfigUserEmail ;;;
  sh env GitAdd ;;;
  sh env (GitCommit message) ;;;
  sh env (GitTag ("v" ++ newV)) ;;;
  sh env GitPush ;;;
  attempt (EWriteFile "package.json" (assign_version packageJson newV))
          (writeFile_ok env).

(** [try { ... } catch (error) { console.error("Failed to push to git", error) }] *)
Definition release (env : Env) (id : string) : M unit :=
  try_catch (release_try env id)
            (perform (EConsoleError "Failed to push to git")).

(** ** The retry counter *)

(** [!client.session["tries"]]: true on undefined and on 0. *)
Definition not_tries (c : Client) : bool :=
  match tries c with
  | None => true
  | Some n => (n =? 0)%Z
  end.

(** [client.session["tries"] > 3] *)
Definition tries_gt_3 (c : Client) : bool :=
  match tries c with
  | None => false
  | Some n => (3 <? n)%Z
  end.

(** [if (!client.session["tries"]) { client.session["tries"] = 0; }
     else { client.session["tries"]++; }]

    The increment is the exact one.  That of the source is exact on the
    integers from -2^53 up to, but not including, 2^53; the theorems that
    assert a counter of [n + 1] assume [n] in that range. *)
Definition count_failure : M unit :=
  c <- get ;;
  if not_tries c then put {| tries := Some 0%Z |}
  else put {| tries := option_map Z.succ (tries c) |}.

(** ** The hooks *)

Definition prompt_text (result : BuildAttempt) : string :=
  "While building the project, the following error occurred:"
    ++ newline ++ newline ++ stderr result ++ newline ++ newline
    ++ "Please fix the error and try again.".

(** How a block of the handler ends: with [return], or by running off its
    end into the statements that follow it. *)
Inductive Flow := Returned | FellThrough.

(** The block of [if (result.exitCode !== 0)].  Only the branch of
    [tries > 3] has a [return]. *)
Definition on_failure (env : Env) (ev : Event) : M Flow :=
  count_failure ;;;
  c <- get ;;
  if tries_gt_3 c then
    call_updateAppStatus Errored ;;;
    perform (EConsoleLog "CHANGE STATUS TO ERRORED") ;;;
    ret Returned
  else
    attempt (EPrompt (sessionID ev) (prompt_text (build env)))
            (prompt_ok env) ;;;
    ret FellThrough.

(** The [event] hook. *)
Definition event (env : Env) (ev : Event) : M unit :=
  if negb (String.eqb (type ev) "session.idle") then ret tt
  else
    perform (EShell PnpmBuild) ;;;
    flow <- (if negb (exitCode (build env) =? 0)%Z
             then on_failure env ev
             else ret FellThrough) ;;
    match flow with
    | Returned => ret tt
    | FellThrough =>
        release env (sessionID ev) ;;;
        call_updateAppStatus Active ;;;
        perform (EConsoleLog "CHANGE STATUS TO ACTIVE")
    end.

(** The ["chat.message"] hook. *)
Definition chat_message : M unit :=
  call_updateAppStatus Pending ;;;
  perform (EConsoleLog "CHANGE STATUS TO PENDING").

(** The host delivers events one after the other; each run of the handler
    starts from the [client.session] the previous one left. *)
Fixpoint deliver (inputs : list (Env * Event)) (c : Client)
  : Client * list Effect :=
  match inputs with
  | [] => (c, [])
  | (env, ev) :: rest =>
      let r := event env ev c in
      let (c', t) := deliver rest (final r) in
      (c', (effects r ++ t)%list)
  end.

(** ** Sample inputs *)

Definition fresh : Client := {| tries := None |}.

Definition idle (id : string) : Event :=
  {| type := "session.idle"; sessionID := id |}.

Definition sample_manifest (version : string) : json :=
  JObject [("name", JString "taylordb-blank");
           ("version", JString version);
           ("private", JBool true)].

(** A world in which everything but the build works. *)
Definition world (code : Z) (err : string) (version : string)
    (t : option string) : Env :=
  {| build := {| exitCode := code; stderr := err |};
     prompt_ok := true;
     manifest := Parsed (sample_manifest version);
     session_get := GetReturns (Some {| title := t |});
     shell_ok := fun _ => true;
     writeFile_ok := true |}.

Definition failing : Env :=
  world 1 "type error on line 5" "1.2.3" (Some "Fix the build").

Definition passing : Env :=
  world 0 "" "2.0.9" (Some "Add the settings page").

(** ** Vocabulary of the proofs *)

(** A computation that leaves [client.session] as it found it. *)
Definition keeps_state {X} (m : M X) : Prop := forall c, final (m c) = c.

(** A computation all of whose effects satisfy [P]. *)
Definition only_effects (P : Effect -> Prop) {X} (m : M X) : Prop :=
  forall c, Forall P (effects (m c)).

(** The effects with which a run of the handler ends after a release. *)
Definition activate : list Effect :=
  [ECall_updateAppStatus Active; EConsoleLog "CHANGE STATUS TO ACTIVE"].

(** [client.session] after the counting of one failure. *)
Definition counted (c : Client) : Client :=
  if not_tries c then {| tries := Some 0%Z |}
  else {| tries := option_map Z.succ (tries c) |}.

(** The effects that come from the [try] block and its [catch]. *)
Definition from_release (e : Effect) : bool :=
  match e with
  | EShell PnpmBuild => false
  | EShell _ | EReadFile _ | ESessionGet _ | EWriteFile _ _
  | EConsoleError _ => true
  | _ => false
  end.

(** A string without a dot. *)
Fixpoint no_dot (s : string) : bool :=
  match s with
  | EmptyString => true
  | String c r => negb (Ascii.eqb c "."%char) && no_dot r
  end.

(** The request that [disabled_body] would send. *)
Definition status_request (axios : Axios) (status : Status) : Effect :=
  EHttpPut (baseURL axios) "/" (status_body status)
           [("Content-Type", "application/json")].

Definition is_http_put (e : Effect) : bool :=
  match e with
  | EHttpPut _ _ _ _ => true
  | _ => false
  end.

Definition orchestrator : Axios :=
  {| baseURL := "http://orchestrator.internal/status"; reachable := true |}.

(** A successful build whose push is rejected. *)
Definition push_rejected : Env :=
  {| build := {| exitCode := 0; stderr := "" |};
     prompt_ok := true;
     manifest := Parsed (sample_manifest "2.0.9");
     session_get := GetReturns (Some {| title := Some "Add the settings page" |});
     shell_ok := fun c => match c with GitPush => false | _ => true end;
     writeFile_ok := true |}.

(** A successful build in a session whose title is the empty string. *)
Definition empty_title : Env := world 0 "" "1.2.3" (Some "").

(** A successful build in a session that has no title. *)
Definition untitled : Env := world 0 "" "1.2.3" None.

(** [packageJson.version], when [packageJson] is an object and the property is
    a string: the one case in which [version_of] does not raise. *)
Definition version_string (packageJson : json) : option string :=
  match packageJson with
  | JObject fields =>
      match lookup "version" fields with
      | Some (JString v) => Some v
      | _ => None
      end
  | _ => None
  end.

(** The six git commands of the [try] block, in the order of the source. *)
Definition git_commands (message newV : string) : list Cmd :=
  [GitConfigUserName; GitConfigUserEmail; GitAdd;
   GitCommit message; GitTag ("v" ++ newV); GitPush].

(** Commands issued one after the other up to the first that fails: what was
    issued, and whether all of them succeeded. *)
Fixpoint run_cmds (ok : Cmd -> bool) (cmds : list Cmd) : list Effect * bool :=
  match cmds with
  | [] => ([], true)
  | cmd :: rest =>
      if ok cmd then
        let (t, b) := run_cmds ok rest in (EShell cmd :: t, b)
      else ([EShell cmd], false)
  end.

(** Every step of the [try] block succeeds in this world. *)
Definition release_ok (env : Env) : bool :=
  match manifest env with
  | Parsed packageJson =>
      match version_string packageJson, session_get env with
      | Some v, GetReturns data =>
          forallb (shell_ok env)
                  (git_commands (commitMessage data (newVersion v))
                                (newVersion v))
          && writeFile_ok env
      | _, _ => false
      end
  | _ => false
  end.

(** What a run of the handler performs once the counter is past 3. *)
Definition report_errored : list Effect :=
  [EShell PnpmBuild; ECall_updateAppStatus Errored;
   EConsoleLog "CHANGE STATUS TO ERRORED"].

(** A [session.idle] event whose build fails. *)
Definition idle_failure (input : Env * Event) : Prop :=
  type (snd input) = "session.idle" /\ exitCode (build (fst input)) <> 0%Z.

(** A manifest whose version is a number, not a string. *)
Definition numeric_version : Env :=
  {| build := {| exitCode := 0; stderr := "" |};
     prompt_ok := true;
     manifest := Parsed (JObject [("name", JString "taylordb-blank");
                                  ("version", JNumber "1")]);
     session_get := GetReturns (Some {| title := Some "Add the settings page" |});
     shell_ok := fun _ => true;
     writeFile_ok := true |}.

(** A failing build in a world where the follow-up prompt is rejected. *)
Definition prompt_rejected : Env :=
  {| build := {| exitCode := 1; stderr := "type error on line 5" |};
     prompt_ok := false;
     manifest := Parsed (sample_manifest "1.2.3");
     session_get := GetReturns (Some {| title := Some "Fix the build" |});
     shell_ok := fun _ => true;
     writeFile_ok := true |}.

(** * Properties *)

(** ** Laws of the effect layer *)

Section Laws.

Context {A B : Type}.

Lemma keeps_ret (a : A) : keeps_state (ret a).
Proof. intro c. reflexivity. Qed.

Lemma keeps_throw : keeps_state (@throw A).
Proof. intro c. reflexivity. Qed.

Lemma keeps_perform e : keeps_state (perform e).
Proof. intro c. reflexivity. Qed.

Lemma keeps_attempt e ok : keeps_state (attempt e ok).
Proof. intro c. reflexivity. Qed.

Lemma keeps_bind (m : M A) (f : A -> M B) :
  keeps_state m -> (forall a, keeps_state (f a)) -> keeps_state (bind m f).
Proof.
  intros Hm Hf c. unfold bind.
  destruct (value (m c)); cbn; [rewrite Hf | ]; apply Hm.
Qed.

Lemma keeps_try_catch (m h : M A) :
  keeps_state m -> keeps_state h -> keeps_state (try_catch m h).
Proof.
  intros Hm Hh c. unfold try_catch.
  destruct (value (m c)); cbn; [ | rewrite Hh]; apply Hm.
Qed.

Variable P : Effect -> Prop.

Lemma only_ret (a : A) : only_effects P (ret a).
Proof. intro c. constructor. Qed.

Lemma only_throw : only_effects P (@throw A).
Proof. intro c. constructor. Qed.

Lemma only_perform e : P e -> only_effects P (perform e).
Proof. intros He c. repeat constructor. exact He. Qed.

Lemma only_attempt e ok : P e -> only_effects P (attempt e ok).
Proof. intros He c. repeat constructor. exact He. Qed.

Lemma only_bind (m : M A) (f : A -> M B) :
  only_effects P m -> (forall a, only_effects P (f a)) ->
  only_effects P (bind m f).
Proof.
  intros Hm Hf c. unfold bind.
  destruct (value (m c)); cbn; [apply Forall_app; split | ];
    solve [apply Hm | apply Hf].
Qed.

Lemma only_try_catch (m h : M A) :
  only_effects P m -> only_effects P h -> only_effects P (try_catch m h).
Proof.
  intros Hm Hh c. unfold try_catch.
  destruct (value (m c)); cbn; [ | apply Forall_app; split];
    solve [apply Hm | apply Hh].
Qed.

End Laws.

Create HintDb eff discriminated.
#[export] Hint Resolve keeps_ret keeps_throw keeps_perform keeps_attempt
  keeps_bind keeps_try_catch only_ret only_throw only_perform only_attempt
  only_bind only_try_catch : eff.

(** A handled block of type [unit] cannot raise when its handler cannot. *)
Lemma try_catch_perform_value (m : M unit) e c :
  value (try_catch m (perform e) c) = Ok tt.
Proof.
  unfold try_catch. destruct (value (m c)) as [[] | ] eqn:E; cbn; auto.
Qed.

(** What the handled block performs: the effects of its body, and the
    handler's when the body raised. *)
Lemma try_catch_perform_effects (m : M unit) e c :
  effects (try_catch m (perform e) c) =
  (effects (m c) ++ match value (m c) with Ok _ => [] | Throw => [e] end)%list.
Proof.
  unfold try_catch. destruct (value (m c)); cbn; auto using app_nil_r.
Qed.

(** ** The release block *)

Lemma version_of_keeps packageJson : keeps_state (version_of packageJson).
Proof.
  destruct packageJson; cbn; auto with eff.
  destruct (lookup "version" fields) as [[] | ]; auto with eff.
Qed.

Lemma read_manifest_keeps env : keeps_state (read_manifest env).
Proof.
  unfold read_manifest. apply keeps_bind; auto with eff.
  intros _. destruct (manifest env); auto with eff.
Qed.

Lemma get_session_keeps env id : keeps_state (get_session env id).
Proof.
  unfold get_session. apply keeps_bind; auto with eff.
  intros _. destruct (session_get env); auto with eff.
Qed.

#[export] Hint Resolve version_of_keeps read_manifest_keeps get_session_keeps
  : eff.

Lemma release_try_keeps env id : keeps_state (release_try env id).
Proof.
  unfold release_try, sh.
  repeat (apply keeps_bind; [auto with eff | intros ?]). auto with eff.
Qed.

Lemma release_keeps env id : keeps_state (release env id).
Proof.
  unfold release. apply keeps_try_catch; auto using release_try_keeps with eff.
Qed.

Lemma release_value env id c : value (release env id c) = Ok tt.
Proof. apply try_catch_perform_value. Qed.

Lemma release_effects env id c :
  effects (release env id c) =
  (effects (release_try env id c)
     ++ match value (release_try env id c) with
        | Ok _ => []
        | Throw => [EConsoleError "Failed to push to git"]
        end)%list.
Proof. apply try_catch_perform_effects. Qed.

(** ** The two ways through the handler *)

Lemma count_failure_run c : count_failure c = MkRun (counted c) [] (Ok tt).
Proof. unfold count_failure, counted, bind. cbn. destruct (not_tries c); reflexivity. Qed.

Lemma run_eta {A} (r : Run A) : MkRun (final r) (effects r) (value r) = r.
Proof. destruct r; reflexivity. Qed.

Lemma bind_ret {A B} (a : A) (k : A -> M B) c : bind (ret a) k c = k a c.
Proof. unfold bind, ret. cbn. apply run_eta. Qed.

Lemma bind_get {B} (k : Client -> M B) c : bind get k c = k c c.
Proof. unfold bind, get. cbn. apply run_eta. Qed.

Lemma bind_put {B} (k : unit -> M B) c' c : bind (put c') k c = k tt c'.
Proof. unfold bind, put. cbn. apply run_eta. Qed.

Lemma bind_perform {B} e (k : unit -> M B) c :
  bind (perform e) k c =
  MkRun (final (k tt c)) (e :: effects (k tt c)) (value (k tt c)).
Proof. reflexivity. Qed.

Lemma bind_attempt {B} e ok (k : unit -> M B) c :
  bind (attempt e ok) k c =
  if ok then MkRun (final (k tt c)) (e :: effects (k tt c)) (value (k tt c))
  else MkRun c [e] Throw.
Proof. destruct ok; reflexivity. Qed.

Lemma bind_unfold {A B} (m : M A) (k : A -> M B) c :
  bind m k c =
  match value (m c) with
  | Ok a =>
      MkRun (final (k a (final (m c))))
            (effects (m c) ++ effects (k a (final (m c))))%list
            (value (k a (final (m c))))
  | Throw => MkRun (final (m c)) (effects (m c)) Throw
  end.
Proof. reflexivity. Qed.

Lemma bind_run {A B} (m : M A) (k : A -> M B) c c1 t1 a :
  m c = MkRun c1 t1 (Ok a) ->
  bind m k c =
  MkRun (final (k a c1)) (t1 ++ effects (k a c1))%list (value (k a c1)).
Proof. intros E. unfold bind. rewrite E. reflexivity. Qed.

Lemma on_failure_run env ev c :
  on_failure env ev c =
  if tries_gt_3 (counted c) then
    MkRun (counted c)
          [ECall_updateAppStatus Errored;
           EConsoleLog "CHANGE STATUS TO ERRORED"]
          (Ok Returned)
  else
    MkRun (counted c)
          [EPrompt (sessionID ev) (prompt_text (build env))]
          (if prompt_ok env then Ok FellThrough else Throw).
Proof.
  unfold on_failure.
  rewrite bind_run with (1 := count_failure_run c). rewrite bind_get.
  cbn [app]. rewrite run_eta.
  destruct (tries_gt_3 (counted c)); [reflexivity | ].
  rewrite bind_attempt. destruct (prompt_ok env); reflexivity.
Qed.

Lemma activate_run c :
  (call_updateAppStatus Active ;;;
   perform (EConsoleLog "CHANGE STATUS TO ACTIVE")) c =
  MkRun c activate (Ok tt).
Proof. reflexivity. Qed.

Lemma release_and_activate_run env id c :
  (release env id ;;;
   call_updateAppStatus Active ;;;
   perform (EConsoleLog "CHANGE STATUS TO ACTIVE")) c =
  MkRun c (effects (release env id c) ++ activate)%list (Ok tt).
Proof.
  unfold bind at 1. rewrite release_value, release_keeps, activate_run.
  reflexivity.
Qed.

Lemma event_build_failed env ev c :
  type ev = "session.idle" ->
  exitCode (build env) <> 0%Z ->
  event env ev c =
  if tries_gt_3 (counted c) then
    MkRun (counted c)
          [EShell PnpmBuild; ECall_updateAppStatus Errored;
           EConsoleLog "CHANGE STATUS TO ERRORED"]
          (Ok tt)
  else if prompt_ok env then
    MkRun (counted c)
          (EShell PnpmBuild
             :: EPrompt (sessionID ev) (prompt_text (build env))
             :: effects (release env (sessionID ev) (counted c)) ++ activate)%list
          (Ok tt)
  else
    MkRun (counted c)
          [EShell PnpmBuild; EPrompt (sessionID ev) (prompt_text (build env))]
          Throw.
Proof.
  intros Hty Hex. unfold event. rewrite Hty.
  apply Z.eqb_neq in Hex. rewrite Hex.
  cbn [negb String.eqb Ascii.eqb Bool.eqb].
  rewrite bind_perform, bind_unfold, on_failure_run.
  destruct (tries_gt_3 (counted c)); cbn [value final effects app];
    [reflexivity | ].
  destruct (prompt_ok env); cbn [value final effects app]; [ | reflexivity].
  rewrite release_and_activate_run. reflexivity.
Qed.

Lemma event_build_ok env ev c :
  type ev = "session.idle" ->
  exitCode (build env) = 0%Z ->
  event env ev c =
  MkRun c (EShell PnpmBuild :: effects (release env (sessionID ev) c) ++ activate)%list
        (Ok tt).
Proof.
  intros Hty Hex. unfold event. rewrite Hty, Hex.
  cbn [negb String.eqb Ascii.eqb Bool.eqb Z.eqb].
  rewrite bind_perform, bind_ret, release_and_activate_run. reflexivity.
Qed.

Lemma event_other env ev c :
  type ev <> "session.idle" -> event env ev c = MkRun c [] (Ok tt).
Proof.
  intros Hty. unfold event. apply String.eqb_neq in Hty. rewrite Hty.
  reflexivity.
Qed.

(** ** What a release can perform *)

Lemma release_only env id :
  only_effects (fun e => from_release e = true) (release env id).
Proof.
  unfold release, release_try, sh, read_manifest, get_session.
  apply only_try_catch; [ | auto with eff].
  apply only_bind.
  { apply only_bind; [auto with eff | intros _].
    destruct (manifest env); auto with eff. }
  intros packageJson. apply only_bind.
  { destruct packageJson; cbn; auto with eff.
    destruct (lookup "version" fields) as [[] | ]; auto with eff. }
  intros version. apply only_bind.
  { apply only_bind; [auto with eff | intros _].
    destruct (session_get env); auto with eff. }
  intros data.
  repeat (apply only_bind; [auto with eff | intros _]). auto with eff.
Qed.

Lemma release_effect env id c e :
  In e (effects (release env id c)) -> from_release e = true.
Proof.
  intros Hin. pose proof (release_only env id c) as H.
  rewrite Forall_forall in H. auto.
Qed.

(** ** The counter never leaves 0 *)

Lemma counted_not_tries c : not_tries c = true -> counted c = {| tries := Some 0%Z |}.
Proof. unfold counted. intros ->. reflexivity. Qed.

Lemma event_keeps_not_tries env ev c :
  not_tries c = true ->
  not_tries (final (event env ev c)) = true /\
  ~ In (ECall_updateAppStatus Errored) (effects (event env ev c)).
Proof.
  intros Hc.
  destruct (string_dec (type ev) "session.idle") as [Hty | Hty];
    [ | rewrite (@event_other env ev c Hty); cbn; auto].
  destruct (Z.eq_dec (exitCode (build env)) 0) as [Hex | Hex].
  - rewrite (@event_build_ok env ev c Hty Hex). cbn [final effects]. split; [assumption | ].
    intros [H | H]; [discriminate | ].
    apply in_app_or in H. destruct H as [H | H].
    + apply release_effect in H. discriminate.
    + cbn in H. intuition discriminate.
  - rewrite (@event_build_failed env ev c Hty Hex), (@counted_not_tries c Hc).
    cbn [tries_gt_3 tries Z.ltb Z.compare].
    destruct (prompt_ok env); cbn [final effects]; (split; [reflexivity | ]).
    + intros [H | [H | H]]; try discriminate.
      apply in_app_or in H. destruct H as [H | H].
      * apply release_effect in H. discriminate.
      * cbn in H. intuition discriminate.
    + cbn. intuition discriminate.
Qed.

Lemma deliver_keeps_not_tries inputs : forall c,
  not_tries c = true ->
  not_tries (fst (deliver inputs c)) = true /\
  ~ In (ECall_updateAppStatus Errored) (snd (deliver inputs c)).
Proof.
  induction inputs as [ | [env ev] rest IH]; intros c Hc; cbn [deliver].
  - cbn. auto.
  - destruct (event_keeps_not_tries env ev c Hc) as [Hc' Hno].
    specialize (IH _ Hc').
    destruct (deliver rest (final (event env ev c))) as [c' t].
    cbn [fst snd] in *. destruct IH as [IH1 IH2]. split; [assumption | ].
    intros H. apply in_app_or in H. tauto.
Qed.

(** C1 (the code at the failing input).  Whatever events are delivered to a
    fresh plugin, [updateAppStatus("Errored")] is never called and [tries]
    stays undefined or 0; in particular the fifth of five consecutive failing
    builds is answered, like the four before it, by a follow-up prompt. *)
Theorem errored_is_never_reached :
  (forall inputs,
      not_tries (fst (deliver inputs fresh)) = true /\
      ~ In (ECall_updateAppStatus Errored) (snd (deliver inputs fresh))) /\
  let after_four := fst (deliver (repeat (failing, idle "s1") 4) fresh) in
  after_four = {| tries := Some 0%Z |} /\
  firstn 2 (effects (event failing (idle "s1") after_four)) =
  [EShell PnpmBuild; EPrompt "s1" (prompt_text (build failing))].
Proof.
  split.
  - intros inputs. apply deliver_keeps_not_tries. reflexivity.
  - vm_compute. split; reflexivity.
Qed.

(** C2 (the code at the failing input).  A failing build that finds no
    counter sets it to 0, and a failing build that finds the counter at 0
    sets it to 0 again instead of incrementing it. *)
Theorem failure_on_zero_counter_is_not_counted :
  tries (final (event failing (idle "s1") fresh)) = Some 0%Z /\
  tries (final (event failing (idle "s1") {| tries := Some 0%Z |})) = Some 0%Z.
Proof. split; vm_compute; reflexivity. Qed.

(** C3 (the code at the failing input).  On a first failing build the handler
    sends the follow-up prompt with the build's stderr, and then runs on into
    the release: it commits, tags [v1.2.4], pushes, rewrites the manifest and
    calls [updateAppStatus("Active")]. *)
Theorem failed_build_is_released :
  event failing (idle "s1") fresh =
  MkRun {| tries := Some 0%Z |}
        [EShell PnpmBuild;
         EPrompt "s1"
           ("While building the project, the following error occurred:"
              ++ newline ++ newline ++ "type error on line 5"
              ++ newline ++ newline ++ "Please fix the error and try again.");
         EReadFile "package.json";
         ESessionGet "s1";
         EShell GitConfigUserName;
         EShell GitConfigUserEmail;
         EShell GitAdd;
         EShell (GitCommit "Fix the build");
         EShell (GitTag "v1.2.4");
         EShell GitPush;
         EWriteFile "package.json" (sample_manifest "1.2.4");
         ECall_updateAppStatus Active;
         EConsoleLog "CHANGE STATUS TO ACTIVE"]
        (Ok tt).
Proof. vm_compute. reflexivity. Qed.

(** C10.  An event of any type other than [session.idle] makes the handler
    return at once: nothing is performed and [client.session] is as before. *)
Theorem other_events_are_ignored env ev c :
  type ev <> "session.idle" ->
  event env ev c = MkRun c [] (Ok tt).
Proof. apply event_other. Qed.

Lemma other_events_are_ignored_witness :
  event failing {| type := "message.updated"; sessionID := "s1" |}
        {| tries := Some 0%Z |}
  = MkRun {| tries := Some 0%Z |} [] (Ok tt).
Proof.
  apply other_events_are_ignored. cbn. discriminate.
Defined.

(** ** Version arithmetic *)

Lemma split_dot_no_dot s : no_dot s = true -> split_dot s = [s].
Proof.
  induction s as [ | a s IH]; cbn; [reflexivity | ].
  intros H. apply andb_prop in H. destruct H as [Ha Hs].
  apply negb_true_iff in Ha. rewrite Ha, (IH Hs). reflexivity.
Qed.

Lemma split_dot_app s r :
  no_dot s = true -> split_dot (s ++ "." ++ r) = s :: split_dot r.
Proof.
  induction s as [ | a s IH]; cbn; [reflexivity | ].
  intros H. apply andb_prop in H. destruct H as [Ha Hs].
  apply negb_true_iff in Ha. rewrite Ha. cbn in IH. rewrite (IH Hs).
  reflexivity.
Qed.

Lemma string_of_uint_no_dot d : no_dot (NilEmpty.string_of_uint d) = true.
Proof. induction d; cbn; auto. Qed.

Lemma decimal_no_dot n : no_dot (decimal n) = true.
Proof. apply string_of_uint_no_dot. Qed.

Lemma Number_decimal n : Number (decimal n) = Num n.
Proof.
  unfold Number, decimal. rewrite NilEmpty.usu.
  f_equal. apply DecimalN.Unsigned.of_to.
Qed.

Lemma newVersion_decimal major minor patch :
  newVersion (decimal major ++ "." ++ decimal minor ++ "." ++ decimal patch) =
  decimal major ++ "." ++ decimal minor ++ "." ++ decimal (patch + 1).
Proof.
  unfold newVersion.
  rewrite split_dot_app by apply decimal_no_dot.
  rewrite split_dot_app by apply decimal_no_dot.
  rewrite split_dot_no_dot by apply decimal_no_dot.
  cbn [map nth]. rewrite !Number_decimal. reflexivity.
Qed.

(** ** Manifest fields *)

Lemma lookup_set_field_same k v fields :
  lookup k (set_field k v fields) = Some v.
Proof.
  induction fields as [ | [k' v'] rest IH]; cbn.
  - rewrite String.eqb_refl. reflexivity.
  - destruct (String.eqb k' k) eqn:E; cbn; rewrite E; auto.
Qed.

Lemma lookup_set_field_other k k' v fields :
  k' <> k -> lookup k' (set_field k v fields) = lookup k' fields.
Proof.
  intros Hne. induction fields as [ | [k0 v0] rest IH]; cbn.
  - apply not_eq_sym in Hne. apply String.eqb_neq in Hne. rewrite Hne. reflexivity.
  - destruct (String.eqb k0 k) eqn:E; cbn.
    + apply String.eqb_eq in E. subst k0.
      apply not_eq_sym in Hne. apply String.eqb_neq in Hne. rewrite Hne.
      reflexivity.
    + destruct (String.eqb k0 k'); auto.
Qed.

(** ** The release, step by step *)

Lemma read_manifest_run env c packageJson :
  manifest env = Parsed packageJson ->
  read_manifest env c = MkRun c [EReadFile "package.json"] (Ok packageJson).
Proof. intros H. unfold read_manifest. rewrite bind_perform, H. reflexivity. Qed.

Lemma version_of_run fields v c :
  lookup "version" fields = Some (JString v) ->
  version_of (JObject fields) c = MkRun c [] (Ok v).
Proof. intros H. unfold version_of. rewrite H. reflexivity. Qed.

Lemma get_session_run env id c data :
  session_get env = GetReturns data ->
  get_session env id c = MkRun c [ESessionGet id] (Ok data).
Proof. intros H. unfold get_session. rewrite bind_perform, H. reflexivity. Qed.

(** Once the manifest is read and the session fetched, what remains of the
    [try] block is the run of git commands and the write. *)
Lemma release_try_parsed env id c fields v data :
  manifest env = Parsed (JObject fields) ->
  lookup "version" fields = Some (JString v) ->
  session_get env = GetReturns data ->
  let newV := newVersion v in
  let tail :=
    (sh env GitConfigUserName ;;;
     sh env GitConfigUserEmail ;;;
     sh env GitAdd ;;;
     sh env (GitCommit (commitMessage data newV)) ;;;
     sh env (GitTag ("v" ++ newV)) ;;;
     sh env GitPush ;;;
     attempt (EWriteFile "package.json"
                (JObject (set_field "version" (JString newV) fields)))
             (writeFile_ok env)) c in
  release_try env id c =
  MkRun (final tail)
        (EReadFile "package.json" :: ESessionGet id :: effects tail)
        (value tail).
Proof.
  intros Hm Hv Hs newV tail. unfold release_try.
  rewrite bind_run with (1 := read_manifest_run env c Hm).
  rewrite bind_run with (1 := version_of_run fields c Hv).
  rewrite bind_run with (1 := get_session_run env id c Hs).
  reflexivity.
Qed.

Ltac run_git :=
  unfold sh; repeat rewrite bind_attempt; cbn [final effects value].

(** C5.  On a successful build with a manifest whose version is
    [major.minor.patch] in decimal (each below 2^53, where a double counts
    exactly), and a release none of whose steps fails, the new version is
    [major.minor.(patch+1)]: the handler tags [v] followed by it and writes
    the manifest back with that version and every other field as it was.
    In particular 1.2.3 becomes 1.2.4. *)
Theorem release_bumps_patch env ev c fields major minor patch data :
  type ev = "session.idle" ->
  exitCode (build env) = 0%Z ->
  manifest env = Parsed (JObject fields) ->
  lookup "version" fields =
    Some (JString (decimal major ++ "." ++ decimal minor ++ "." ++ decimal patch)) ->
  (major < MAX_SAFE)%N -> (minor < MAX_SAFE)%N -> (patch < MAX_SAFE)%N ->
  session_get env = GetReturns data ->
  (forall cmd, shell_ok env cmd = true) ->
  writeFile_ok env = true ->
  let next := decimal major ++ "." ++ decimal minor ++ "." ++ decimal (patch + 1) in
  let fields' := set_field "version" (JString next) fields in
  newVersion "1.2.3" = "1.2.4" /\
  effects (event env ev c) =
    [EShell PnpmBuild;
     EReadFile "package.json";
     ESessionGet (sessionID ev);
     EShell GitConfigUserName;
     EShell GitConfigUserEmail;
     EShell GitAdd;
     EShell (GitCommit (commitMessage data next));
     EShell (GitTag ("v" ++ next));
     EShell GitPush;
     EWriteFile "package.json" (JObject fields');
     ECall_updateAppStatus Active;
     EConsoleLog "CHANGE STATUS TO ACTIVE"] /\
  lookup "version" fields' = Some (JString next) /\
  (forall k, k <> "version" -> lookup k fields' = lookup k fields).
Proof.
  intros Hty Hex Hm Hv _ _ _ Hs Hsh Hw next fields'.
  split; [reflexivity | split; [ | split] ].
  - rewrite (@event_build_ok env ev c Hty Hex). cbn [effects].
    rewrite release_effects.
    rewrite (@release_try_parsed env (sessionID ev) c _ _ _ Hm Hv Hs).
    rewrite newVersion_decimal. fold next. fold fields'.
    run_git. rewrite !Hsh, Hw. reflexivity.
  - apply lookup_set_field_same.
  - intros k Hk. apply lookup_set_field_other. exact Hk.
Qed.

Lemma release_bumps_patch_witness :
  newVersion "2.0.9" = "2.0.10" /\
  effects (event passing (idle "s1") fresh) =
    [EShell PnpmBuild;
     EReadFile "package.json";
     ESessionGet "s1";
     EShell GitConfigUserName;
     EShell GitConfigUserEmail;
     EShell GitAdd;
     EShell (GitCommit "Add the settings page");
     EShell (GitTag "v2.0.10");
     EShell GitPush;
     EWriteFile "package.json" (sample_manifest "2.0.10");
     ECall_updateAppStatus Active;
     EConsoleLog "CHANGE STATUS TO ACTIVE"] /\
  lookup "name" (set_field "version" (JString "2.0.10")
                   [("name", JString "taylordb-blank");
                    ("version", JString "2.0.9");
                    ("private", JBool true)])
  = Some (JString "taylordb-blank").
Proof.
  destruct (@release_bumps_patch passing (idle "s1") fresh
              [("name", JString "taylordb-blank");
               ("version", JString "2.0.9");
               ("private", JBool true)]
              2 0 9 (Some {| title := Some "Add the settings page" |})
              eq_refl eq_refl eq_refl eq_refl eq_refl eq_refl eq_refl eq_refl
              (fun _ => eq_refl) eq_refl)
    as (_ & Heff & _ & Hother).
  split; [reflexivity | split; [exact Heff | ] ].
  refine (Hother "name" _). discriminate.
Defined.

(** C6, as stated, fails: with the empty string as the session's title the
    commit is made with the empty message, not with the synthesized one. *)
Lemma empty_title_is_the_commit_message :
  In (EShell (GitCommit "")) (effects (release empty_title "s1" fresh)) /\
  ~ In (EShell (GitCommit "feat: release version v1.2.4"))
       (effects (release empty_title "s1" fresh)).
Proof.
  vm_compute. split; [tauto | ]. intuition discriminate.
Qed.

(** C6, amended.  When the release reaches the commit, the message is the
    session's title whenever the session has one, the empty title included;
    it is [feat: release version v] followed by the new version only when
    the session's data or its title is missing. *)
Theorem commit_message_is_title_unless_missing env id c fields v data :
  manifest env = Parsed (JObject fields) ->
  lookup "version" fields = Some (JString v) ->
  session_get env = GetReturns data ->
  shell_ok env GitConfigUserName = true ->
  shell_ok env GitConfigUserEmail = true ->
  shell_ok env GitAdd = true ->
  let message :=
    match data with
    | Some {| title := Some t |} => t
    | _ => "feat: release version v" ++ newVersion v
    end in
  In (EShell (GitCommit message)) (effects (release env id c)) /\
  (forall m, In (EShell (GitCommit m)) (effects (release env id c)) ->
             m = message).
Proof.
  intros Hm Hv Hs H1 H2 H3 message.
  assert (Hmsg : commitMessage data (newVersion v) = message).
  { destruct data as [[[t | ] ] | ]; reflexivity. }
  rewrite release_effects.
  rewrite (@release_try_parsed env id c _ _ _ Hm Hv Hs).
  rewrite Hmsg. run_git. rewrite H1, H2, H3.
  destruct (shell_ok env (GitCommit message));
    [destruct (shell_ok env (GitTag ("v" ++ newVersion v)));
     [destruct (shell_ok env GitPush); [destruct (writeFile_ok env) | ] | ]
    | ];
    cbn [final effects value app In]; (split; [tauto | ]);
    intros m Hin;
    repeat (destruct Hin as [Hin | Hin]; try discriminate Hin;
            try (injection Hin as <-; reflexivity));
    contradiction.
Qed.

Lemma commit_message_is_title_unless_missing_witness :
  In (EShell (GitCommit "feat: release version v1.2.4"))
     (effects (release untitled "s1" fresh)) /\
  In (EShell (GitCommit "")) (effects (release empty_title "s1" fresh)).
Proof.
  split.
  - apply (@commit_message_is_title_unless_missing untitled "s1" fresh
             [("name", JString "taylordb-blank");
              ("version", JString "1.2.3");
              ("private", JBool true)]
             "1.2.3" (Some {| title := None |})
             eq_refl eq_refl eq_refl eq_refl eq_refl eq_refl).
  - apply (@commit_message_is_title_unless_missing empty_title "s1" fresh
             [("name", JString "taylordb-blank");
              ("version", JString "1.2.3");
              ("private", JBool true)]
             "1.2.3" (Some {| title := Some "" |})
             eq_refl eq_refl eq_refl eq_refl eq_refl eq_refl).
Defined.

(** ** Status reporting *)

(** C7, as stated, fails: with the environment variable unset the module
    raises while it is imported, so there is no [updateAppStatus] to call,
    let alone one that returns. *)
Lemma unconfigured_module_does_not_load :
  import_then_updateAppStatus None false Pending fresh = Throw /\
  import_then_updateAppStatus None false Pending fresh
    <> Ok (MkRun fresh [] (Ok tt)).
Proof. split; [reflexivity | discriminate]. Qed.

(** C7, amended.  Once the endpoint URL is configured, [updateAppStatus]
    returns normally on every status, performs nothing and leaves
    [client.session] alone, whether or not the endpoint can be reached, and
    so does calling it twice; with the URL unset the import itself raises. *)
Theorem updateAppStatus_never_throws_once_loaded
    (url : string) (reachable : bool) (status : Status) (c : Client) :
  import_then_updateAppStatus (Some url) reachable status c
    = Ok (MkRun c [] (Ok tt)) /\
  (updateAppStatus status ;;; updateAppStatus status) c = MkRun c [] (Ok tt) /\
  load None reachable = Throw.
Proof. repeat split. Qed.

(** C8, as stated, fails: a call of [updateAppStatus("Pending")] sends no
    request; the PUT with the status in its body is what the disabled
    statement would send, and it is not among the effects of the call. *)
Lemma no_request_on_pending :
  effects (disabled_body orchestrator Pending fresh)
    = [status_request orchestrator Pending] /\
  ~ In (status_request orchestrator Pending)
       (effects (call_updateAppStatus Pending fresh)) /\
  effects (updateAppStatus Pending fresh) = [].
Proof.
  split; [reflexivity | split; [ | reflexivity] ].
  vm_compute. intuition discriminate.
Qed.

(** Every effect of a run of the [event] hook. *)
Lemma event_effect env ev c e :
  In e (effects (event env ev c)) ->
  from_release e = true \/
  In e [EShell PnpmBuild;
        ECall_updateAppStatus Errored;
        EConsoleLog "CHANGE STATUS TO ERRORED";
        EPrompt (sessionID ev) (prompt_text (build env));
        ECall_updateAppStatus Active;
        EConsoleLog "CHANGE STATUS TO ACTIVE"].
Proof.
  destruct (string_dec (type ev) "session.idle") as [Hty | Hty];
    [ | rewrite (@event_other env ev c Hty); cbn; tauto].
  assert (Hrel : forall c', In e (effects (release env (sessionID ev) c') ++ activate) ->
                 from_release e = true \/
                 In e [EShell PnpmBuild;
                       ECall_updateAppStatus Errored;
                       EConsoleLog "CHANGE STATUS TO ERRORED";
                       EPrompt (sessionID ev) (prompt_text (build env));
                       ECall_updateAppStatus Active;
                       EConsoleLog "CHANGE STATUS TO ACTIVE"]).
  { intros c' H. apply in_app_or in H. destruct H as [H | H].
    - left. exact (release_effect _ _ _ _ H).
    - right. cbn in H. cbn. tauto. }
  destruct (Z.eq_dec (exitCode (build env)) 0) as [Hex | Hex].
  - rewrite (@event_build_ok env ev c Hty Hex). cbn [effects].
    intros [H | H]; [right; left; exact H | eauto].
  - rewrite (@event_build_failed env ev c Hty Hex).
    destruct (tries_gt_3 (counted c)); [ | destruct (prompt_ok env)];
      cbn [effects].
    + intros H. right. cbn in H. cbn. tauto.
    + intros [H | [H | H] ]; [right; cbn; tauto | right; cbn; tauto | eauto].
    + intros H. right. cbn in H. cbn. tauto.
Qed.

(** C8, amended.  For every status value [updateAppStatus] performs no
    request to the status endpoint: the PUT to the base URL, with its JSON
    body and its [Content-Type] header, exists in the source only as a
    comment.  No run of either hook holds a request through [axios], the
    client of that endpoint. *)
Theorem updateAppStatus_sends_nothing (status : Status) (c : Client) :
  effects (updateAppStatus status c) = [] /\
  effects (call_updateAppStatus status c) = [ECall_updateAppStatus status] /\
  (forall e, In e (effects (chat_message c)) -> is_http_put e = false) /\
  (forall env ev e, In e (effects (event env ev c)) -> is_http_put e = false).
Proof.
  split; [reflexivity | split; [reflexivity | split] ].
  - intros e H. cbn in H. intuition (subst; reflexivity).
  - intros env ev e H. apply event_effect in H. destruct H as [H | H].
    + destruct e; try reflexivity. discriminate H.
    + cbn in H. intuition (subst; reflexivity).
Qed.

(** ** One counter for every session *)

(** C9, as stated, fails: a successful build that follows a failed one leaves
    the counter where the failure put it. *)
Lemma counter_survives_success :
  tries (fst (deliver [(failing, idle "s1"); (passing, idle "s1")] fresh))
    = Some 0%Z /\
  tries (fst (deliver [(failing, idle "s1"); (passing, idle "s1")] fresh))
    <> None.
Proof. vm_compute. split; [reflexivity | discriminate]. Qed.

(** What a run of the handler leaves in [client.session]. *)
Lemma event_final env ev c :
  final (event env ev c) =
  if (String.eqb (type ev) "session.idle"
      && negb (exitCode (build env) =? 0)%Z)%bool
  then counted c
  else c.
Proof.
  destruct (String.eqb (type ev) "session.idle") eqn:Ety; cbn [andb].
  - apply String.eqb_eq in Ety.
    destruct (exitCode (build env) =? 0)%Z eqn:Eex; cbn [negb].
    + apply Z.eqb_eq in Eex. rewrite (@event_build_ok env ev c Ety Eex).
      reflexivity.
    + apply Z.eqb_neq in Eex. rewrite (@event_build_failed env ev c Ety Eex).
      destruct (tries_gt_3 (counted c)); [ | destruct (prompt_ok env)];
        reflexivity.
  - apply String.eqb_neq in Ety. rewrite (@event_other env ev c Ety).
    reflexivity.
Qed.

(** C9, amended.  The retry count is the one property [tries] of the shared
    [client.session], not a table keyed by session id: what a run of the
    handler leaves there never depends on the session id of the event.  The
    first failing build creates it, with value 0; a successful build leaves
    [client.session] exactly as it was, so the count is not removed. *)
Theorem one_counter_for_all_sessions env (ty id id' : string) c :
  final (event env {| type := ty; sessionID := id |} c) =
  final (event env {| type := ty; sessionID := id' |} c) /\
  (ty = "session.idle" -> exitCode (build env) <> 0%Z -> tries c = None ->
   tries (final (event env {| type := ty; sessionID := id |} c)) = Some 0%Z) /\
  (exitCode (build env) = 0%Z ->
   final (event env {| type := ty; sessionID := id |} c) = c).
Proof.
  rewrite !event_final. cbn [type]. split; [reflexivity | split].
  - intros -> Hex Hc. apply Z.eqb_neq in Hex. rewrite Hex. cbn.
    unfold counted, not_tries. rewrite Hc. reflexivity.
  - intros Hex. rewrite Hex. cbn. rewrite andb_false_r. reflexivity.
Qed.

Lemma one_counter_for_all_sessions_witness :
  tries (final (event failing (idle "s1") fresh)) = Some 0%Z /\
  final (event failing (idle "s1") fresh) =
  final (event failing (idle "s2") fresh) /\
  final (event passing (idle "s1") {| tries := Some 0%Z |}) =
  {| tries := Some 0%Z |}.
Proof.
  destruct (@one_counter_for_all_sessions failing "session.idle" "s1" "s2" fresh)
    as (Hsame & Hfirst & _).
  destruct (@one_counter_for_all_sessions passing "session.idle" "s1" "s2"
              {| tries := Some 0%Z |})
    as (_ & _ & Hkeep).
  split; [ | split].
  - apply Hfirst; [reflexivity | discriminate | reflexivity].
  - exact Hsame.
  - apply Hkeep. reflexivity.
Defined.

(** * Further properties of the handler *)

(** ** The [try] block in normal form *)

Lemma version_of_string packageJson c :
  version_of packageJson c =
  MkRun c [] (match version_string packageJson with
              | Some v => Ok v
              | None => Throw
              end).
Proof.
  destruct packageJson; try reflexivity. cbn.
  destruct (lookup "version" fields) as [[] | ]; reflexivity.
Qed.

Lemma version_string_inv packageJson v :
  version_string packageJson = Some v ->
  exists fields,
    packageJson = JObject fields /\
    lookup "version" fields = Some (JString v).
Proof.
  destruct packageJson; try discriminate. cbn.
  destruct (lookup "version" fields) as [[] | ] eqn:E; try discriminate.
  intros [= ->]. eauto.
Qed.

Lemma bind_throws {A B} (m : M A) (k : A -> M B) c c1 t1 :
  m c = MkRun c1 t1 Throw -> bind m k c = MkRun c1 t1 Throw.
Proof. intros E. unfold bind. rewrite E. reflexivity. Qed.

Lemma read_manifest_throws env c :
  (forall packageJson, manifest env <> Parsed packageJson) ->
  read_manifest env c = MkRun c [EReadFile "package.json"] Throw.
Proof.
  intros H. unfold read_manifest. rewrite bind_perform.
  destruct (manifest env); try reflexivity. exfalso. eapply H. reflexivity.
Qed.

Lemma get_session_throws env id c :
  session_get env = GetThrows ->
  get_session env id c = MkRun c [ESessionGet id] Throw.
Proof. intros H. unfold get_session. rewrite bind_perform, H. reflexivity. Qed.

Lemma run_cmds_all ok cmds : snd (run_cmds ok cmds) = forallb ok cmds.
Proof.
  induction cmds as [ | cmd rest IH]; cbn; [reflexivity | ].
  destruct (ok cmd); cbn; [ | reflexivity].
  destruct (run_cmds ok rest). exact IH.
Qed.

(** The whole run of the [try] block, read off the answers of the world. *)
Lemma release_try_run env id c :
  release_try env id c =
  match manifest env with
  | Parsed packageJson =>
      match version_string packageJson with
      | Some v =>
          match session_get env with
          | GetReturns data =>
              let newV := newVersion v in
              let r := run_cmds (shell_ok env)
                         (git_commands (commitMessage data newV) newV) in
              MkRun c
                (EReadFile "package.json" :: ESessionGet id :: fst r
                   ++ (if snd r
                       then [EWriteFile "package.json"
                               (assign_version packageJson newV)]
                       else []))%list
                (if (snd r && writeFile_ok env)%bool then Ok tt else Throw)
          | GetThrows =>
              MkRun c [EReadFile "package.json"; ESessionGet id] Throw
          end
      | None => MkRun c [EReadFile "package.json"] Throw
      end
  | _ => MkRun c [EReadFile "package.json"] Throw
  end.
Proof.
  destruct (manifest env) as [ | | packageJson] eqn:Hm.
  - unfold release_try. apply bind_throws. apply read_manifest_throws.
    intros p. rewrite Hm. discriminate.
  - unfold release_try. apply bind_throws. apply read_manifest_throws.
    intros p. rewrite Hm. discriminate.
  - destruct (version_string packageJson) as [v | ] eqn:Hv.
    + destruct (version_string_inv _ Hv) as (fields & -> & Hl).
      destruct (session_get env) as [ | data] eqn:Hs.
      * unfold release_try.
        rewrite bind_run with (1 := read_manifest_run env c Hm).
        rewrite bind_run with (1 := version_of_run fields c Hl).
        rewrite bind_throws with (1 := get_session_throws env id c Hs).
        reflexivity.
      * rewrite (@release_try_parsed env id c _ _ _ Hm Hl Hs).
        unfold git_commands. cbn [run_cmds assign_version].
        unfold sh. repeat rewrite bind_attempt. cbn [final effects value].
        destruct (shell_ok env GitConfigUserName); [ | reflexivity].
        destruct (shell_ok env GitConfigUserEmail); [ | reflexivity].
        destruct (shell_ok env GitAdd); [ | reflexivity].
        destruct (shell_ok env (GitCommit _)); [ | reflexivity].
        destruct (shell_ok env (GitTag _)); [ | reflexivity].
        destruct (shell_ok env GitPush); [ | reflexivity].
        destruct (writeFile_ok env); reflexivity.
    + unfold release_try.
      rewrite bind_run with (1 := read_manifest_run env c Hm).
      rewrite bind_throws with (c1 := c) (t1 := []); [reflexivity | ].
      rewrite version_of_string, Hv. reflexivity.
Qed.

Lemma run_cmds_shell ok cmds e :
  In e (fst (run_cmds ok cmds)) -> exists cmd, e = EShell cmd /\ In cmd cmds.
Proof.
  induction cmds as [ | cmd rest IH]; cbn; [contradiction | ].
  destruct (ok cmd).
  - destruct (run_cmds ok rest) as [t b]. cbn in *.
    intros [<- | H]; [eauto | ].
    destruct (IH H) as (cmd' & -> & Hin). eauto.
  - cbn. intros [<- | []]. eauto.
Qed.

Lemma run_cmds_all_issued ok cmds :
  forallb ok cmds = true -> fst (run_cmds ok cmds) = map EShell cmds.
Proof.
  induction cmds as [ | cmd rest IH]; cbn; [reflexivity | ].
  intros H. apply andb_prop in H. destruct H as [Hc Hr]. rewrite Hc.
  specialize (IH Hr). destruct (run_cmds ok rest). cbn in *. congruence.
Qed.

Lemma run_cmds_first_failure ok before cmd after :
  forallb ok before = true ->
  ok cmd = false ->
  run_cmds ok (before ++ cmd :: after) = (map EShell before ++ [EShell cmd], false)%list.
Proof.
  induction before as [ | b rest IH]; cbn; intros Hb Hc.
  - rewrite Hc. reflexivity.
  - apply andb_prop in Hb. destruct Hb as [Hb Hr]. rewrite Hb, (IH Hr Hc).
    reflexivity.
Qed.

(** Every effect of the [try] block, with what the world must have answered
    for it to be there. *)
Lemma release_try_effect env id c e :
  In e (effects (release_try env id c)) ->
  e = EReadFile "package.json" \/
  exists packageJson v,
    manifest env = Parsed packageJson /\
    version_string packageJson = Some v /\
    (e = ESessionGet id \/
     exists data,
       session_get env = GetReturns data /\
       let cmds := git_commands (commitMessage data (newVersion v))
                                (newVersion v) in
       ((exists cmd, e = EShell cmd /\ In cmd cmds) \/
        (e = EWriteFile "package.json"
               (assign_version packageJson (newVersion v)) /\
         forallb (shell_ok env) cmds = true))).
Proof.
  rewrite release_try_run.
  destruct (manifest env) as [ | | packageJson] eqn:Hm;
    try (cbn; intros [<- | []]; auto).
  destruct (version_string packageJson) as [v | ] eqn:Hv;
    [ | cbn; intros [<- | []]; auto].
  destruct (session_get env) as [ | data] eqn:Hs.
  - cbn. intros [<- | [<- | []]]; [auto | ]. right. exists packageJson, v. auto.
  - cbn [effects]. intros [<- | [<- | H]]; [auto | | ];
      right; exists packageJson, v; (split; [trivial | split; [trivial | ] ]);
      [auto | ].
    right. exists data. split; [trivial | ]. cbn zeta.
    apply in_app_or in H. destruct H as [H | H].
    + left. apply run_cmds_shell in H. exact H.
    + right. rewrite run_cmds_all in H.
      destruct (forallb (shell_ok env) _) eqn:Hall; [ | contradiction].
      destruct H as [<- | []]. auto.
Qed.

Lemma release_try_value env id c :
  value (release_try env id c) = if release_ok env then Ok tt else Throw.
Proof.
  rewrite release_try_run. unfold release_ok.
  destruct (manifest env) as [ | | packageJson]; try reflexivity.
  destruct (version_string packageJson) as [v | ]; [ | reflexivity].
  destruct (session_get env) as [ | data]; [reflexivity | ].
  cbn [value]. rewrite run_cmds_all. reflexivity.
Qed.

Lemma release_logs_a_failure env id c :
  release_ok env = false ->
  In (EConsoleError "Failed to push to git") (effects (release env id c)).
Proof.
  intros H. rewrite release_effects, release_try_value, H.
  apply in_or_app. right. left. reflexivity.
Qed.

(** C4.  When the build exits with 0 the handler returns normally and calls
    [updateAppStatus("Active")], whatever the world answers to the release;
    and whenever a step of the release fails (the manifest cannot be read or
    parsed, it has no string version, the session lookup rejects, one of the
    git commands fails, or the manifest cannot be written) the failure is
    logged with [console.error] and goes no further. *)
Theorem successful_build_reports_active env ev c :
  type ev = "session.idle" ->
  exitCode (build env) = 0%Z ->
  value (event env ev c) = Ok tt /\
  In (ECall_updateAppStatus Active) (effects (event env ev c)) /\
  (release_ok env = false ->
   In (EConsoleError "Failed to push to git") (effects (event env ev c))).
Proof.
  intros Hty Hex. rewrite (@event_build_ok env ev c Hty Hex). cbn [value effects].
  split; [reflexivity | split].
  - right. apply in_or_app. right. left. reflexivity.
  - intros Hfail. right. apply in_or_app. left.
    apply release_logs_a_failure. exact Hfail.
Qed.

Lemma successful_build_reports_active_witness :
  release_ok push_rejected = false /\
  value (event push_rejected (idle "s1") fresh) = Ok tt /\
  In (ECall_updateAppStatus Active)
     (effects (event push_rejected (idle "s1") fresh)) /\
  In (EConsoleError "Failed to push to git")
     (effects (event push_rejected (idle "s1") fresh)).
Proof.
  destruct (@successful_build_reports_active push_rejected (idle "s1") fresh
              eq_refl eq_refl) as (Hv & Hact & Hlog).
  split; [reflexivity | split; [exact Hv | split; [exact Hact | ] ] ].
  apply Hlog. reflexivity.
Defined.

(** X1.  The [try] block of the release runs to its end exactly when the
    manifest is read and parsed, holds a string version, the session lookup
    resolves, all six git commands succeed and the manifest is written; and
    [console.error] is called exactly when one of these fails. *)
Theorem release_fails_iff_a_step_fails env id c :
  (value (release_try env id c) = Ok tt <-> release_ok env = true) /\
  (In (EConsoleError "Failed to push to git") (effects (release env id c))
   <-> release_ok env = false).
Proof.
  assert (Hval : value (release_try env id c) =
                 if release_ok env then Ok tt else Throw).
  { rewrite release_try_run. unfold release_ok.
    destruct (manifest env) as [ | | packageJson]; try reflexivity.
    destruct (version_string packageJson) as [v | ]; [ | reflexivity].
    destruct (session_get env) as [ | data]; [reflexivity | ].
    cbn [value]. rewrite run_cmds_all. reflexivity. }
  split.
  - rewrite Hval. destruct (release_ok env); split; congruence.
  - rewrite release_effects, Hval. destruct (release_ok env); split.
    + intros H. rewrite app_nil_r in H. apply release_try_effect in H.
      destruct H as [H | (p & v & _ & _ & [H | (d & _ & [(cmd & H & _) | (H & _)])])];
        discriminate H.
    + discriminate.
    + reflexivity.
    + intros _. apply in_or_app. right. left. reflexivity.
Qed.

(** X2.  The manifest is written only after everything before it went
    through: if a release writes a file, the file is [package.json], the
    manifest had been parsed with a string version, the session lookup had
    resolved, every one of the six git commands (the push included) had
    succeeded, and what is written is the parsed manifest with its version
    replaced by the new one. *)
Theorem manifest_written_only_after_push env id c path content :
  In (EWriteFile path content) (effects (release env id c)) ->
  exists packageJson v data,
    manifest env = Parsed packageJson /\
    version_string packageJson = Some v /\
    session_get env = GetReturns data /\
    forallb (shell_ok env)
            (git_commands (commitMessage data (newVersion v)) (newVersion v))
      = true /\
    path = "package.json" /\
    content = assign_version packageJson (newVersion v).
Proof.
  rewrite release_effects. intros H. apply in_app_or in H.
  destruct H as [H | H].
  - apply release_try_effect in H.
    destruct H as [H | (p & v & Hm & Hv & [H | (d & Hs & [(cmd & H & _) | (H & Hall)])])];
      try discriminate H.
    injection H as -> ->. exists p, v, d. repeat split; trivial.
  - destruct (value (release_try env id c)); cbn in H; [contradiction | ].
    destruct H as [H | []]. discriminate H.
Qed.

Lemma manifest_written_only_after_push_witness :
  exists packageJson v data,
    manifest passing = Parsed packageJson /\
    version_string packageJson = Some v /\
    session_get passing = GetReturns data /\
    forallb (shell_ok passing)
            (git_commands (commitMessage data (newVersion v)) (newVersion v))
      = true /\
    "package.json" = "package.json" /\
    sample_manifest "2.0.10" = assign_version packageJson (newVersion v).
Proof.
  apply (@manifest_written_only_after_push passing "s1" fresh
           "package.json" (sample_manifest "2.0.10")).
  vm_compute. tauto.
Defined.

(** X3.  A git command is issued by the release only if it is one of the six
    of the source, with the resolved commit message and the tag of the new
    version, and only once the manifest has been parsed with a string version
    and the session lookup has resolved. *)
Theorem git_only_after_manifest_and_session env id c cmd :
  In (EShell cmd) (effects (release env id c)) ->
  exists packageJson v data,
    manifest env = Parsed packageJson /\
    version_string packageJson = Some v /\
    session_get env = GetReturns data /\
    In cmd (git_commands (commitMessage data (newVersion v)) (newVersion v)).
Proof.
  rewrite release_effects. intros H. apply in_app_or in H.
  destruct H as [H | H].
  - apply release_try_effect in H.
    destruct H as [H | (p & v & Hm & Hv & [H | (d & Hs & [(cmd' & H & Hin) | (H & _)])])];
      try discriminate H.
    injection H as ->. exists p, v, d. repeat split; trivial.
  - destruct (value (release_try env id c)); cbn in H; [contradiction | ].
    destruct H as [H | []]. discriminate H.
Qed.

Lemma git_only_after_manifest_and_session_witness :
  exists packageJson v data,
    manifest passing = Parsed packageJson /\
    version_string packageJson = Some v /\
    session_get passing = GetReturns data /\
    In (GitTag "v2.0.10")
       (git_commands (commitMessage data (newVersion v)) (newVersion v)).
Proof.
  apply (@git_only_after_manifest_and_session passing "s1" fresh).
  vm_compute. tauto.
Defined.

(** X4.  When the manifest cannot be used (the read or the parse fails, or
    the parsed value has no string [version]), the release does nothing but
    read the file and log the failure: no session lookup, no git command, no
    write. *)
Theorem unusable_manifest_stops_release env id c :
  (forall packageJson,
      manifest env = Parsed packageJson -> version_string packageJson = None) ->
  effects (release env id c) =
  [EReadFile "package.json"; EConsoleError "Failed to push to git"].
Proof.
  intros H. rewrite release_effects, release_try_run.
  destruct (manifest env) as [ | | packageJson]; try reflexivity.
  rewrite (H packageJson eq_refl). reflexivity.
Qed.

Lemma unusable_manifest_stops_release_witness :
  effects (release numeric_version "s1" fresh) =
  [EReadFile "package.json"; EConsoleError "Failed to push to git"].
Proof.
  apply unusable_manifest_stops_release.
  intros packageJson H. injection H as <-. reflexivity.
Defined.

(** X5.  The git commands run in the order of the source and stop at the
    first that fails: the commands before it are issued, it is issued, the
    failure is logged, and neither a later command nor the write of the
    manifest is attempted. *)
Theorem release_stops_at_first_failure
    env id c packageJson v data before cmd after :
  manifest env = Parsed packageJson ->
  version_string packageJson = Some v ->
  session_get env = GetReturns data ->
  git_commands (commitMessage data (newVersion v)) (newVersion v)
    = (before ++ cmd :: after)%list ->
  forallb (shell_ok env) before = true ->
  shell_ok env cmd = false ->
  effects (release env id c) =
  (EReadFile "package.json" :: ESessionGet id :: map EShell before
     ++ [EShell cmd; EConsoleError "Failed to push to git"])%list.
Proof.
  intros Hm Hv Hs Hsplit Hbefore Hcmd.
  rewrite release_effects, release_try_run, Hm, Hv, Hs. cbn zeta.
  rewrite Hsplit, (@run_cmds_first_failure _ before cmd after Hbefore Hcmd).
  cbn [fst snd andb value effects]. rewrite app_nil_r.
  cbn [app]. rewrite <- app_assoc. reflexivity.
Qed.

Lemma release_stops_at_first_failure_witness :
  effects (release push_rejected "s1" fresh) =
  [EReadFile "package.json"; ESessionGet "s1";
   EShell GitConfigUserName; EShell GitConfigUserEmail; EShell GitAdd;
   EShell (GitCommit "Add the settings page"); EShell (GitTag "v2.0.10");
   EShell GitPush; EConsoleError "Failed to push to git"].
Proof.
  apply (@release_stops_at_first_failure push_rejected "s1" fresh
           (sample_manifest "2.0.9") "2.0.9"
           (Some {| title := Some "Add the settings page" |})
           [GitConfigUserName; GitConfigUserEmail; GitAdd;
            GitCommit "Add the settings page"; GitTag "v2.0.10"]
           GitPush []
           eq_refl eq_refl eq_refl eq_refl eq_refl eq_refl).
Defined.

(** X6.  The tag and the manifest agree: whenever a release writes the
    manifest, the version it writes is the one it has just tagged, behind a
    [v], and every other field is the one that was read. *)
Theorem written_version_is_the_tag env id c path fields' :
  In (EWriteFile path (JObject fields')) (effects (release env id c)) ->
  exists fields next,
    manifest env = Parsed (JObject fields) /\
    fields' = set_field "version" (JString next) fields /\
    lookup "version" fields' = Some (JString next) /\
    In (EShell (GitTag ("v" ++ next))) (effects (release env id c)) /\
    (forall k, k <> "version" -> lookup k fields' = lookup k fields).
Proof.
  intros H. pose proof H as Hw. rewrite release_effects in H.
  apply in_app_or in H. destruct H as [H | H].
  - apply release_try_effect in H.
    destruct H as [H | (p & v & Hm & Hv & [H | (d & Hs & [(cmd & H & _) | (H & Hall)])])];
      try discriminate H.
    destruct (version_string_inv _ Hv) as (fields & -> & Hl).
    cbn [assign_version] in H. injection H as -> ->.
    exists fields, (newVersion v).
    split; [exact Hm | split; [reflexivity | split; [ | split] ] ].
    + apply lookup_set_field_same.
    + rewrite release_effects, release_try_run, Hm.
      cbn [version_string]. rewrite Hl, Hs. cbn zeta. cbn [effects].
      apply in_or_app. left. right. right. apply in_or_app. left.
      rewrite (@run_cmds_all_issued _ _ Hall). cbn. tauto.
    + intros k Hk. apply lookup_set_field_other. exact Hk.
  - destruct (value (release_try env id c)); cbn in H; [contradiction | ].
    destruct H as [H | []]. discriminate H.
Qed.

Lemma written_version_is_the_tag_witness :
  exists fields next,
    manifest passing = Parsed (JObject fields) /\
    [("name", JString "taylordb-blank"); ("version", JString "2.0.10");
     ("private", JBool true)]
      = set_field "version" (JString next) fields /\
    lookup "version"
      [("name", JString "taylordb-blank"); ("version", JString "2.0.10");
       ("private", JBool true)] = Some (JString next) /\
    In (EShell (GitTag ("v" ++ next))) (effects (release passing "s1" fresh)) /\
    (forall k, k <> "version" ->
       lookup k [("name", JString "taylordb-blank");
                 ("version", JString "2.0.10"); ("private", JBool true)]
       = lookup k [("name", JString "taylordb-blank");
                   ("version", JString "2.0.9"); ("private", JBool true)]).
Proof.
  destruct (@written_version_is_the_tag passing "s1" fresh "package.json"
              [("name", JString "taylordb-blank");
               ("version", JString "2.0.10"); ("private", JBool true)])
    as (fields & next & Hm & Hf & Hl & Htag & Hother).
  - vm_compute. tauto.
  - exists fields, next. injection Hm as <-. auto.
Defined.

(** ** The branches of the handler *)

Lemma tries_gt_3_counted c :
  tries_gt_3 (counted c) = true <-> exists n, tries c = Some n /\ (3 <= n)%Z.
Proof.
  unfold counted, not_tries, tries_gt_3. destruct c as [[n | ] ]; cbn.
  - destruct (n =? 0)%Z eqn:E; cbn.
    + apply Z.eqb_eq in E. subst n. split; [discriminate | ].
      intros (n & [= <-] & H). lia.
    + rewrite Z.ltb_lt. split.
      * intros H. exists n. split; [reflexivity | lia].
      * intros (m & [= <-] & H). lia.
  - split; [discriminate | ]. intros (n & H & _). discriminate.
Qed.

Lemma release_no_status env id c s :
  ~ In (ECall_updateAppStatus s) (effects (release env id c)).
Proof. intros H. apply release_effect in H. discriminate. Qed.

Lemma release_no_prompt env id c id' t :
  ~ In (EPrompt id' t) (effects (release env id c)).
Proof. intros H. apply release_effect in H. discriminate. Qed.

(** X7.  The handler rejects in one case only: the build failed, the counter
    (if any) was below 3, and the follow-up prompt was rejected.  Whatever
    else fails, the build or any step of the release, it resolves. *)
Theorem handler_rejects_iff_prompt_rejected env ev c :
  value (event env ev c) = Throw <->
  type ev = "session.idle" /\
  exitCode (build env) <> 0%Z /\
  (forall n, tries c = Some n -> (n < 3)%Z) /\
  prompt_ok env = false.
Proof.
  destruct (string_dec (type ev) "session.idle") as [Hty | Hty];
    [ | rewrite (@event_other env ev c Hty); cbn; split;
        [discriminate | tauto] ].
  destruct (Z.eq_dec (exitCode (build env)) 0) as [Hex | Hex];
    [rewrite (@event_build_ok env ev c Hty Hex); cbn; split;
       [discriminate | tauto] | ].
  rewrite (@event_build_failed env ev c Hty Hex).
  pose proof (tries_gt_3_counted c) as Hgt.
  destruct (tries_gt_3 (counted c)).
  - cbn. split; [discriminate | ]. intros (_ & _ & Hlt & _).
    destruct Hgt as [Hgt _]. destruct (Hgt eq_refl) as (n & Hn & H3).
    specialize (Hlt n Hn). lia.
  - assert (Hlt : forall n, tries c = Some n -> (n < 3)%Z).
    { intros n Hn. destruct (Z.lt_ge_cases n 3) as [H | H]; [exact H | ].
      destruct Hgt as [_ Hgt]. discriminate Hgt. eauto. }
    destruct (prompt_ok env); cbn; split; try tauto; try discriminate.
    intros (_ & _ & _ & H). discriminate H.
Qed.

(** X8.  [updateAppStatus("Errored")] is called exactly when a build fails
    while the counter already holds 3 or more. *)
Theorem errored_iff_counter_at_least_3 env ev c :
  In (ECall_updateAppStatus Errored) (effects (event env ev c)) <->
  type ev = "session.idle" /\
  exitCode (build env) <> 0%Z /\
  exists n, tries c = Some n /\ (3 <= n)%Z.
Proof.
  destruct (string_dec (type ev) "session.idle") as [Hty | Hty];
    [ | rewrite (@event_other env ev c Hty); cbn; tauto].
  destruct (Z.eq_dec (exitCode (build env)) 0) as [Hex | Hex].
  - rewrite (@event_build_ok env ev c Hty Hex). cbn [effects]. split; [ | tauto].
    intros [H | H]; [discriminate | ]. apply in_app_or in H.
    destruct H as [H | H]; [destruct (release_no_status _ _ _ _ H) | ].
    cbn in H. intuition discriminate.
  - rewrite (@event_build_failed env ev c Hty Hex).
    rewrite <- tries_gt_3_counted.
    destruct (tries_gt_3 (counted c)); [cbn; tauto | ].
    split; [ | intros (_ & _ & H); discriminate H].
    destruct (prompt_ok env); cbn [effects].
    + intros [H | [H | H] ]; try discriminate. apply in_app_or in H.
      destruct H as [H | H]; [destruct (release_no_status _ _ _ _ H) | ].
      cbn in H. intuition discriminate.
    + cbn. intuition discriminate.
Qed.

Lemma event_errored_run env ev c n :
  type ev = "session.idle" ->
  exitCode (build env) <> 0%Z ->
  tries c = Some n ->
  (3 <= n)%Z ->
  event env ev c = MkRun {| tries := Some (n + 1)%Z |} report_errored (Ok tt).
Proof.
  intros Hty Hex Hn H3. rewrite (@event_build_failed env ev c Hty Hex).
  assert (Hc : counted c = {| tries := Some (n + 1)%Z |}).
  { unfold counted, not_tries. rewrite Hn.
    destruct (n =? 0)%Z eqn:E; [apply Z.eqb_eq in E; lia | ].
    cbn. rewrite Z.add_1_r. reflexivity. }
  rewrite Hc. cbn [tries_gt_3 tries].
  destruct (3 <? n + 1)%Z eqn:E; [reflexivity | ].
  apply Z.ltb_ge in E. lia.
Qed.

(** X9.  A build that fails while the counter holds [n], from 3 up to the
    last integer that [++] increments exactly, is answered by the Errored
    report and nothing else: the counter goes to [n + 1],
    [updateAppStatus("Errored")] is called and logged, the handler returns
    normally, and no prompt is sent and no release attempted. *)
Theorem failure_past_the_budget_reports_errored env ev c n :
  type ev = "session.idle" ->
  exitCode (build env) <> 0%Z ->
  tries c = Some n ->
  (3 <= n < Z.of_N MAX_SAFE)%Z ->
  event env ev c = MkRun {| tries := Some (n + 1)%Z |} report_errored (Ok tt).
Proof.
  intros Hty Hex Hn [H3 _]. exact (@event_errored_run env ev c n Hty Hex Hn H3).
Qed.

Lemma failure_past_the_budget_reports_errored_witness :
  event failing (idle "s1") {| tries := Some 3%Z |} =
  MkRun {| tries := Some 4%Z |}
        [EShell PnpmBuild; ECall_updateAppStatus Errored;
         EConsoleLog "CHANGE STATUS TO ERRORED"]
        (Ok tt).
Proof.
  apply (@failure_past_the_budget_reports_errored failing (idle "s1")
           {| tries := Some 3%Z |} 3%Z eq_refl);
    [discriminate | reflexivity | split; [discriminate | reflexivity] ].
Defined.

(** X10.  A failing build that finds a counter other than 0, within the
    integers that [++] increments exactly, adds exactly one to it. *)
Theorem failure_on_nonzero_counter_adds_one env ev c n :
  type ev = "session.idle" ->
  exitCode (build env) <> 0%Z ->
  tries c = Some n ->
  n <> 0%Z ->
  (- Z.of_N MAX_SAFE <= n < Z.of_N MAX_SAFE)%Z ->
  tries (final (event env ev c)) = Some (n + 1)%Z.
Proof.
  intros Hty Hex Hn Hnz _. rewrite event_final, Hty.
  apply Z.eqb_neq in Hex. rewrite Hex. cbn.
  unfold counted, not_tries. rewrite Hn.
  apply Z.eqb_neq in Hnz. rewrite Hnz. cbn. rewrite Z.add_1_r. reflexivity.
Qed.

Lemma failure_on_nonzero_counter_adds_one_witness :
  tries (final (event failing (idle "s1") {| tries := Some 2%Z |})) = Some 3%Z.
Proof.
  apply (@failure_on_nonzero_counter_adds_one failing (idle "s1")
           {| tries := Some 2%Z |} 2%Z eq_refl);
    [discriminate | reflexivity | discriminate
     | split; [discriminate | reflexivity] ].
Defined.

Lemma event_counter_grows env ev c n :
  tries c = Some n ->
  exists m, tries (final (event env ev c)) = Some m /\ (n <= m)%Z.
Proof.
  intros Hn. rewrite event_final.
  destruct (_ && _)%bool; [ | exists n; split; [exact Hn | lia] ].
  unfold counted, not_tries. rewrite Hn. destruct (n =? 0)%Z eqn:E; cbn.
  - apply Z.eqb_eq in E. exists 0%Z. split; [reflexivity | lia].
  - exists (Z.succ n). split; [reflexivity | lia].
Qed.

(** X11.  Once the counter is defined it stays defined and never goes down,
    whatever events are delivered and whatever the world answers: nothing in
    the plugin removes or lowers it. *)
Theorem counter_never_decreases inputs : forall c n,
  tries c = Some n ->
  exists m, tries (fst (deliver inputs c)) = Some m /\ (n <= m)%Z.
Proof.
  induction inputs as [ | [env ev] rest IH]; intros c n Hn; cbn [deliver].
  - exists n. split; [exact Hn | lia].
  - destruct (event_counter_grows env ev c Hn) as (m & Hm & Hle).
    destruct (IH _ _ Hm) as (k & Hk & Hle').
    destruct (deliver rest (final (event env ev c))) as [c' t]. cbn [fst] in *.
    exists k. split; [exact Hk | lia].
Qed.

Lemma counter_never_decreases_witness :
  exists m,
    tries (fst (deliver [(failing, idle "s1"); (passing, idle "s2");
                         (failing, idle "s1")]
                        {| tries := Some 2%Z |})) = Some m /\
    (2 <= m)%Z.
Proof.
  apply (@counter_never_decreases
           [(failing, idle "s1"); (passing, idle "s2"); (failing, idle "s1")]
           {| tries := Some 2%Z |} 2%Z).
  reflexivity.
Defined.

(** X12.  Past the budget the handler stays there under failures: from a
    counter of 3 or more, every failing build of a run of them is answered by
    the Errored report alone and adds one to the counter, as long as the
    counter stays within the integers that [++] increments exactly. *)
Theorem errored_is_sticky_under_failures inputs : forall c n,
  tries c = Some n ->
  (3 <= n)%Z ->
  (n + Z.of_nat (List.length inputs) <= Z.of_N MAX_SAFE)%Z ->
  Forall idle_failure inputs ->
  deliver inputs c =
  ({| tries := Some (n + Z.of_nat (List.length inputs))%Z |},
   List.concat (map (fun _ => report_errored) inputs)).
Proof.
  induction inputs as [ | [env ev] rest IH]; intros c n Hn H3 Hmax Hall;
    cbn [deliver List.length map List.concat].
  - rewrite Z.add_0_r. destruct c as [t]. cbn in Hn. subst t. reflexivity.
  - inversion Hall as [ | ? ? [Hty Hex] Hrest]; subst. cbn [fst snd] in *.
    cbn [List.length] in Hmax.
    rewrite (@event_errored_run env ev c n Hty Hex Hn H3).
    cbn [final effects].
    rewrite (IH {| tries := Some (n + 1)%Z |} (n + 1)%Z eq_refl)
      by (lia || assumption).
    f_equal. f_equal. f_equal. lia.
Qed.

Lemma errored_is_sticky_under_failures_witness :
  deliver [(failing, idle "s1"); (prompt_rejected, idle "s2")]
          {| tries := Some 3%Z |} =
  ({| tries := Some 5%Z |},
   [EShell PnpmBuild; ECall_updateAppStatus Errored;
    EConsoleLog "CHANGE STATUS TO ERRORED";
    EShell PnpmBuild; ECall_updateAppStatus Errored;
    EConsoleLog "CHANGE STATUS TO ERRORED"]).
Proof.
  apply (@errored_is_sticky_under_failures
           [(failing, idle "s1"); (prompt_rejected, idle "s2")]
           {| tries := Some 3%Z |} 3%Z eq_refl).
  - discriminate.
  - discriminate.
  - repeat constructor; discriminate.
Defined.

(** X13.  On [session.idle] the build is run exactly once, before anything
    else the handler does. *)
Theorem build_runs_once_and_first env ev c :
  type ev = "session.idle" ->
  exists rest,
    effects (event env ev c) = EShell PnpmBuild :: rest /\
    ~ In (EShell PnpmBuild) rest.
Proof.
  intros Hty.
  assert (Hrel : forall c', ~ In (EShell PnpmBuild)
                              (effects (release env (sessionID ev) c') ++ activate)).
  { intros c' H. apply in_app_or in H. destruct H as [H | H].
    - apply release_effect in H. discriminate.
    - cbn in H. intuition discriminate. }
  destruct (Z.eq_dec (exitCode (build env)) 0) as [Hex | Hex].
  - rewrite (@event_build_ok env ev c Hty Hex). cbn [effects]. eauto.
  - rewrite (@event_build_failed env ev c Hty Hex).
    destruct (tries_gt_3 (counted c)); [ | destruct (prompt_ok env)];
      cbn [effects]; eexists; (split; [reflexivity | ]).
    + cbn. intuition discriminate.
    + intros [H | H]; [discriminate | ]. exact (Hrel _ H).
    + cbn. intuition discriminate.
Qed.

Lemma build_runs_once_and_first_witness :
  exists rest,
    effects (event push_rejected (idle "s1") fresh) = EShell PnpmBuild :: rest /\
    ~ In (EShell PnpmBuild) rest.
Proof.
  apply (@build_runs_once_and_first push_rejected (idle "s1") fresh).
  reflexivity.
Defined.

Lemma event_effect_addressed env ev c e :
  In e (effects (event env ev c)) ->
  match e with
  | EPrompt id text =>
      id = sessionID ev /\ text = prompt_text (build env) /\
      exitCode (build env) <> 0%Z
  | ESessionGet id => id = sessionID ev
  | _ => True
  end.
Proof.
  assert (Hrel : forall c', In e (effects (release env (sessionID ev) c') ++ activate) ->
                 match e with
                 | EPrompt id text =>
                     id = sessionID ev /\ text = prompt_text (build env) /\
                     exitCode (build env) <> 0%Z
                 | ESessionGet id => id = sessionID ev
                 | _ => True
                 end).
  { intros c' H. apply in_app_or in H. destruct H as [H | H].
    - destruct e; trivial.
      + apply release_effect in H. discriminate.
      + rewrite release_effects in H. apply in_app_or in H.
        destruct H as [H | H].
        * apply release_try_effect in H.
          destruct H as [H | (p & v & _ & _ & [H | (d & _ & [(cmd & H & _) | (H & _)])])];
            try discriminate H.
          injection H as ->. reflexivity.
        * destruct (value (release_try env (sessionID ev) c')); cbn in H;
            [contradiction | ].
          destruct H as [H | []]. discriminate H.
    - cbn in H. destruct H as [<- | [<- | []]]; exact I. }
  destruct (string_dec (type ev) "session.idle") as [Hty | Hty];
    [ | rewrite (@event_other env ev c Hty); cbn; contradiction].
  destruct (Z.eq_dec (exitCode (build env)) 0) as [Hex | Hex].
  - rewrite (@event_build_ok env ev c Hty Hex). cbn [effects].
    intros [<- | H]; [exact I | exact (Hrel _ H)].
  - rewrite (@event_build_failed env ev c Hty Hex).
    destruct (tries_gt_3 (counted c)); [ | destruct (prompt_ok env)];
      cbn [effects].
    + intros [<- | [<- | [<- | []]]]; exact I.
    + intros [<- | [<- | H]]; [exact I | auto | exact (Hrel _ H)].
    + intros [<- | [<- | []]]; [exact I | auto].
Qed.

(** X14.  The follow-up prompt and the session lookup are addressed to the
    session that went idle; a prompt is sent only when the build failed, and
    its text is the fixed sentence, two line breaks, the stderr of this run's
    build, two line breaks and the request to fix the error. *)
Theorem effects_address_the_idle_session env ev c e :
  In e (effects (event env ev c)) ->
  match e with
  | EPrompt id text =>
      id = sessionID ev /\
      text = "While building the project, the following error occurred:"
               ++ newline ++ newline ++ stderr (build env)
               ++ newline ++ newline ++ "Please fix the error and try again." /\
      exitCode (build env) <> 0%Z
  | ESessionGet id => id = sessionID ev
  | _ => True
  end.
Proof.
  intros H. apply event_effect_addressed in H. destruct e; exact H.
Qed.

Lemma effects_address_the_idle_session_witness :
  "s1" = sessionID (idle "s1") /\
  "While building the project, the following error occurred:"
    ++ newline ++ newline ++ "type error on line 5"
    ++ newline ++ newline ++ "Please fix the error and try again."
  = "While building the project, the following error occurred:"
      ++ newline ++ newline ++ stderr (build failing)
      ++ newline ++ newline ++ "Please fix the error and try again." /\
  exitCode (build failing) <> 0%Z.
Proof.
  apply (@effects_address_the_idle_session failing (idle "s1") fresh
           (EPrompt "s1"
              ("While building the project, the following error occurred:"
                 ++ newline ++ newline ++ "type error on line 5"
                 ++ newline ++ newline
                 ++ "Please fix the error and try again."))).
  vm_compute. tauto.
Defined.

(** X15.  The [event] hook never reports Pending, and within one run it never
    reports Errored together with Active, nor Errored together with a
    follow-up prompt. *)
Theorem statuses_of_one_run_exclude_each_other env ev c :
  ~ In (ECall_updateAppStatus Pending) (effects (event env ev c)) /\
  (In (ECall_updateAppStatus Errored) (effects (event env ev c)) ->
   ~ In (ECall_updateAppStatus Active) (effects (event env ev c)) /\
   forall id text, ~ In (EPrompt id text) (effects (event env ev c))).
Proof.
  assert (Hrel : forall c' s, s <> Active ->
                 ~ In (ECall_updateAppStatus s)
                      (effects (release env (sessionID ev) c') ++ activate)).
  { intros c' s Hs H. apply in_app_or in H. destruct H as [H | H].
    - exact (release_no_status _ _ _ _ H).
    - cbn in H. destruct H as [H | [H | []]]; [ | discriminate].
      injection H as <-. apply Hs. reflexivity. }
  destruct (string_dec (type ev) "session.idle") as [Hty | Hty];
    [ | rewrite (@event_other env ev c Hty); cbn; tauto].
  destruct (Z.eq_dec (exitCode (build env)) 0) as [Hex | Hex].
  - rewrite (@event_build_ok env ev c Hty Hex). cbn [effects]. split.
    + intros [H | H]; [discriminate | ]. revert H. apply Hrel. discriminate.
    + intros [H | H]; [discriminate | ]. exfalso. revert H. apply Hrel.
      discriminate.
  - rewrite (@event_build_failed env ev c Hty Hex).
    destruct (tries_gt_3 (counted c)); [ | destruct (prompt_ok env)];
      cbn [effects].
    + cbn. split; [intuition discriminate | ]. intros _.
      split; [intuition discriminate | ]. intros id text. intuition discriminate.
    + split.
      * intros [H | [H | H]]; try discriminate. revert H. apply Hrel.
        discriminate.
      * intros [H | [H | H]]; try discriminate. exfalso. revert H. apply Hrel.
        discriminate.
    + cbn. split; [intuition discriminate | ]. intros H. exfalso.
      intuition discriminate.
Qed.

Lemma statuses_of_one_run_exclude_each_other_witness :
  In (ECall_updateAppStatus Errored)
     (effects (event failing (idle "s1") {| tries := Some 3%Z |})) /\
  ~ In (ECall_updateAppStatus Active)
       (effects (event failing (idle "s1") {| tries := Some 3%Z |})).
Proof.
  assert (H : In (ECall_updateAppStatus Errored)
                 (effects (event failing (idle "s1") {| tries := Some 3%Z |})))
    by (vm_compute; tauto).
  split; [exact H | ].
  apply (proj2 (@statuses_of_one_run_exclude_each_other failing (idle "s1")
                  {| tries := Some 3%Z |}) H).
Defined.

(** ** More on versions *)

(** X16.  Two releases in a row add two to the patch: the version that one
    release writes is a version the next one reads back as it was written. *)
Theorem two_releases_add_two major minor patch :
  (major < MAX_SAFE)%N -> (minor < MAX_SAFE)%N -> (patch + 1 < MAX_SAFE)%N ->
  newVersion
    (newVersion (decimal major ++ "." ++ decimal minor ++ "." ++ decimal patch))
  = decimal major ++ "." ++ decimal minor ++ "." ++ decimal (patch + 2).
Proof.
  intros _ _ _. rewrite !newVersion_decimal. do 2 f_equal. do 2 f_equal.
  f_equal. lia.
Qed.

Lemma two_releases_add_two_witness :
  newVersion (newVersion "2.0.9") = "2.0.11".
Proof.
  apply (@two_releases_add_two 2 0 9); reflexivity.
Defined.

(** X17.  Only the first three components of the version are read: whatever
    follows a third dot is dropped from the new version. *)
Theorem components_after_the_third_are_dropped major minor patch rest :
  (major < MAX_SAFE)%N -> (minor < MAX_SAFE)%N -> (patch < MAX_SAFE)%N ->
  newVersion (decimal major ++ "." ++ decimal minor ++ "." ++ decimal patch
                ++ "." ++ rest)
  = decimal major ++ "." ++ decimal minor ++ "." ++ decimal (patch + 1).
Proof.
  intros _ _ _. unfold newVersion.
  rewrite split_dot_app by apply decimal_no_dot.
  rewrite split_dot_app by apply decimal_no_dot.
  rewrite split_dot_app by apply decimal_no_dot.
  cbn [map nth]. rewrite !Number_decimal. reflexivity.
Qed.

Lemma components_after_the_third_are_dropped_witness :
  newVersion "1.2.3.4-beta" = "1.2.4".
Proof.
  apply (@components_after_the_third_are_dropped 1 2 3 "4-beta");
    reflexivity.
Defined.

(** X18.  A version with fewer than three components is not rejected: a
    missing minor prints as [undefined] and a missing patch, to which 1 is
    added, as [NaN]. *)
Theorem missing_components_are_not_rejected major minor :
  (major < MAX_SAFE)%N -> (minor < MAX_SAFE)%N ->
  newVersion (decimal major ++ "." ++ decimal minor)
    = decimal major ++ "." ++ decimal minor ++ ".NaN" /\
  newVersion (decimal major) = decimal major ++ ".undefined.NaN".
Proof.
  intros _ _. unfold newVersion. split.
  - rewrite split_dot_app by apply decimal_no_dot.
    rewrite split_dot_no_dot by apply decimal_no_dot.
    cbn [map nth]. rewrite !Number_decimal. reflexivity.
  - rewrite split_dot_no_dot by apply decimal_no_dot.
    cbn [map nth]. rewrite !Number_decimal. reflexivity.
Qed.

Lemma missing_components_are_not_rejected_witness :
  newVersion "1.2" = "1.2.NaN" /\ newVersion "1" = "1.undefined.NaN".
Proof.
  apply (@missing_components_are_not_rejected 1 2); reflexivity.
Defined.

(** ** More on the manifest *)

Lemma set_field_keys k v old fields :
  lookup k fields = Some old ->
  map fst (set_field k v fields) = map fst fields.
Proof.
  induction fields as [ | [k' v'] rest IH]; cbn; [discriminate | ].
  destruct (String.eqb k' k) eqn:E; cbn; [reflexivity | ].
  intros H. rewrite (IH H). reflexivity.
Qed.

(** X19.  The release does not reorder the manifest: the object it writes has
    exactly the keys of the object it read, in the same order. *)
Theorem written_manifest_keeps_its_keys env id c path fields' :
  In (EWriteFile path (JObject fields')) (effects (release env id c)) ->
  exists fields,
    manifest env = Parsed (JObject fields) /\
    map fst fields' = map fst fields.
Proof.
  rewrite release_effects. intros H. apply in_app_or in H.
  destruct H as [H | H].
  - apply release_try_effect in H.
    destruct H as [H | (p & v & Hm & Hv & [H | (d & Hs & [(cmd & H & _) | (H & Hall)])])];
      try discriminate H.
    destruct (version_string_inv _ Hv) as (fields & -> & Hl).
    cbn [assign_version] in H. injection H as -> ->.
    exists fields. split; [exact Hm | ]. exact (@set_field_keys _ _ _ _ Hl).
  - destruct (value (release_try env id c)); cbn in H; [contradiction | ].
    destruct H as [H | []]. discriminate H.
Qed.

Lemma written_manifest_keeps_its_keys_witness :
  exists fields,
    manifest passing = Parsed (JObject fields) /\
    ["name"; "version"; "private"] = map fst fields.
Proof.
  apply (@written_manifest_keeps_its_keys passing "s1" fresh "package.json"
           [("name", JString "taylordb-blank");
            ("version", JString "2.0.10"); ("private", JBool true)]).
  vm_compute. tauto.
Defined.

(** ** The equivalences at work *)

Lemma release_fails_iff_a_step_fails_witness :
  In (EConsoleError "Failed to push to git")
     (effects (release push_rejected "s1" fresh)) /\
  value (release_try passing "s1" fresh) = Ok tt.
Proof.
  split.
  - apply (proj2 (@release_fails_iff_a_step_fails push_rejected "s1" fresh)).
    reflexivity.
  - apply (proj1 (@release_fails_iff_a_step_fails passing "s1" fresh)).
    reflexivity.
Defined.

Lemma handler_rejects_iff_prompt_rejected_witness :
  value (event prompt_rejected (idle "s1") {| tries := Some 2%Z |}) = Throw.
Proof.
  apply handler_rejects_iff_prompt_rejected.
  split; [reflexivity | split; [discriminate | split; [ | reflexivity] ] ].
  intros n [= <-]. reflexivity.
Defined.

Lemma errored_iff_counter_at_least_3_witness :
  In (ECall_updateAppStatus Errored)
     (effects (event failing (idle "s1") {| tries := Some 3%Z |})).
Proof.
  apply errored_iff_counter_at_least_3.
  split; [reflexivity | split; [discriminate | ] ].
  exists 3%Z. split; [reflexivity | discriminate].
Defined.
